(** * Curation of spike-sorted ecephys recordings: a model of [code/run_capsule.py]

    The capsule is one Python script.  Its pure parts (string handling of
    folder names, resolution of the command-line namespace, construction and
    evaluation of the curation query, the QC mask) are embedded as Rocq
    functions; its effects (log lines, [np.save], the provenance JSON file,
    exceptions) are embedded as an event trace paired with a result in a
    small exception monad.  The external collaborators (the file system, the
    process environment, [argparse]'s tokenizer, [json], spikeinterface's
    loader, pandas' [query]) enter through the [World] record and through
    typed values, as documented at each definition. *)

From Stdlib Require Import ZArith QArith String Ascii List Lia Bool.
From stdpp Require Import base strings list gmap.
Import ListNotations.

Open Scope string_scope.
Open Scope Z_scope.

(** ** Exceptions and the result monad *)

Inductive exn : Type :=
  | SystemExit2          (* argparse's [parser.error]: usage message, exit status 2 *)
  | ValueError           (* [int(...)], [float(...)] on a malformed literal *)
  | OSError              (* [open], [iterdir] on a missing path; malformed JSON *)
  | KeyError (k : string)
  | AssertionError (msg : string)
  | AttributeError.      (* [None.get_data()] *)

Inductive result (A : Type) : Type :=
  | Ok (a : A)
  | Raise (e : exn).
Arguments Ok {A} a.
Arguments Raise {A} e.

#[global] Instance result_ret : MRet result := fun _ a => Ok a.
#[global] Instance result_bind : MBind result := fun _ _ f r =>
  match r with
  | Ok a => f a
  | Raise e => Raise e
  end.
#[global] Instance result_fmap : FMap result := fun _ _ f r =>
  match r with
  | Ok a => Ok (f a)
  | Raise e => Raise e
  end.

Definition of_option {A} (e : exn) (o : option A) : result A :=
  match o with
  | Some a => Ok a
  | None => Raise e
  end.

(** ** Python [str] builtins used by the script *)

Module PyStr.

(** [s.startswith(p)] *)
Definition startswith (s p : string) : bool := String.prefix p s.

(** [s.endswith(suf)]: some suffix of [s] is [suf]. *)
Fixpoint endswith (s suf : string) : bool :=
  String.eqb s suf ||
  match s with
  | EmptyString => false
  | String _ s' => endswith s' suf
  end.

(** [sub in s] *)
Fixpoint contains (sub s : string) : bool :=
  String.prefix sub s ||
  match s with
  | EmptyString => false
  | String _ s' => contains sub s'
  end.

(** [s.find(sub)]: index of the first occurrence, [-1] when there is none. *)
Fixpoint find_from (sub s : string) (i : Z) : Z :=
  if String.prefix sub s then i
  else match s with
       | EmptyString => -1
       | String _ s' => find_from sub s' (i + 1)
       end.
Definition find (s sub : string) : Z := find_from sub s 0.

(** [s[:k]], with Python's reading of a negative bound. *)
Definition slice_to (s : string) (k : Z) : string :=
  let n := Z.of_nat (String.length s) in
  let k' := if k <? 0 then Z.max 0 (n + k) else Z.min k n in
  substring 0 (Z.to_nat k') s.

(** [s.split(sep)] for a one-character separator. *)
Fixpoint split (sep : ascii) (s : string) : list string :=
  match s with
  | EmptyString => [EmptyString]
  | String c s' =>
      if Ascii.eqb c sep then EmptyString :: split sep s'
      else match split sep s' with
           | [] => [String c EmptyString]
           | t :: ts => String c t :: ts
           end
  end.

(** [sep.join(parts)] *)
Fixpoint join (sep : string) (parts : list string) : string :=
  match parts with
  | [] => EmptyString
  | [p] => p
  | p :: ps => p ++ sep ++ join sep ps
  end.

(** [l[1:]] *)
Definition from1 {A} (l : list A) : list A := tl l.

(** Truthiness of a [str]: the empty string is falsy. *)
Definition truthy (s : string) : bool := negb (String.eqb s EmptyString).

(** [a or b] on two [str]. *)
Definition or_str (a b : string) : string := if truthy a then a else b.

(** [a or b] on two values that are [None] or a [str]. *)
Definition or_opt (a b : option string) : option string :=
  match a with
  | Some s => if truthy s then a else b
  | None => b
  end.

End PyStr.

(** ** Python's [int(str)] and [float(str)]

    ASCII input only.  Both strip white space (for an ASCII character that is
    C's [isspace]: tab, line feed, vertical tab, form feed, carriage return
    and space), accept one sign, and allow a single underscore between two
    digits. *)

Module PyNum.

Definition is_space (c : ascii) : bool :=
  let n := Z.of_N (N_of_ascii c) in
  ((9 <=? n) && (n <=? 13)) || (n =? 32).

Fixpoint lstrip (s : string) : string :=
  match s with
  | EmptyString => EmptyString
  | String c s' => if is_space c then lstrip s' else s
  end.

(** [s.rstrip()]: the trailing white space goes. *)
Fixpoint rstrip (s : string) : string :=
  match s with
  | EmptyString => EmptyString
  | String c s' =>
      match rstrip s' with
      | EmptyString => if is_space c then EmptyString else String c EmptyString
      | t => String c t
      end
  end.

Definition strip (s : string) : string := rstrip (lstrip s).

Definition digit_of (c : ascii) : option Z :=
  let n := Z.of_N (N_of_ascii c) in
  if (48 <=? n) && (n <=? 57) then Some (n - 48) else None.

(** The rest of a [digitpart] after its first digit: digits, each optionally
    preceded by one underscore.  Returns the value, the number of digits
    read and the unread rest. *)
Fixpoint digitpart_rest (acc : Z) (n : nat) (s : string) : Z * nat * string :=
  match s with
  | EmptyString => (acc, n, s)
  | String c s' =>
      match digit_of c with
      | Some d => digitpart_rest (10 * acc + d) (S n) s'
      | None =>
          if Ascii.eqb c "_" then
            match s' with
            | EmptyString => (acc, n, s)
            | String c' s'' =>
                match digit_of c' with
                | Some d => digitpart_rest (10 * acc + d) (S n) s''
                | None => (acc, n, s)
                end
            end
          else (acc, n, s)
      end
  end.

Definition digitpart (s : string) : option (Z * nat * string) :=
  match s with
  | EmptyString => None
  | String c s' =>
      match digit_of c with
      | Some d => Some (digitpart_rest d 1 s')
      | None => None
      end
  end.

Definition sign_of (s : string) : Z * string :=
  match s with
  | String "-" r => (-1, r)
  | String "+" r => (1, r)
  | _ => (1, s)
  end.

(** [int(s)] in base 10; [None] stands for [ValueError]. *)
Definition py_int (s : string) : option Z :=
  let '(sg, r) := sign_of (strip s) in
  match digitpart r with
  | Some (v, _, EmptyString) => Some (sg * v)
  | _ => None
  end.

(** [m * 10^e] as a rational. *)
Definition scale10 (m e : Z) : Q :=
  if 0 <=? e then Qmake (m * 10 ^ e) 1 else Qmake m (Z.to_pos (10 ^ (- e))).

(** An optional [digitpart]: value, digit count, rest. *)
Definition digitpart_opt (s : string) : Z * nat * string :=
  match digitpart s with
  | Some r => r
  | None => (0, O, s)
  end.

(** The exponent of a float literal, which must reach the end of the
    string. *)
Definition exponent (s : string) : option Z :=
  match s with
  | EmptyString => Some 0
  | String c r =>
      if Ascii.eqb c "e" || Ascii.eqb c "E" then
        let '(sg, r') := sign_of r in
        match digitpart r' with
        | Some (v, _, EmptyString) => Some (sg * v)
        | _ => None
        end
      else None
  end.

(** [float(s)] on a finite decimal literal; [None] stands for [ValueError].
    The value is the rational the literal denotes: the rounding to binary64
    is not modelled, and neither are the literals [inf] and [nan], which the
    script cannot pass here (it only converts strings that start with
    ["0."]). *)
Definition py_float (s : string) : option Q :=
  let '(sg, r) := sign_of (strip s) in
  let '(ip, ni, r1) := digitpart_opt r in
  let '(fp, nf, r2) :=
    match r1 with
    | String "." r' => digitpart_opt r'
    | _ => (0, O, r1)
    end in
  if Nat.eqb (ni + nf) 0 then None
  else match exponent r2 with
       | Some e => Some (scale10 (sg * (ip * 10 ^ Z.of_nat nf + fp)) (e - Z.of_nat nf))
       | None => None
       end.

End PyNum.

(** ** The command line

    [argparse] is a library; what the script declares (lines 36-51) is two
    mutually exclusive groups: {[static_n_jobs], [--n-jobs]}, both with
    default ["-1"], and {[static_params_file], [--params-file],
    [--params-str]}, all with default [None].  A [CommandLine] is the
    command line after tokenization: the positional words in order, and the
    value of each option that was given. *)

Record CommandLine : Type := {
  positionals : list string;
  opt_n_jobs : option string;
  opt_params_file : option string;
  opt_params_str : option string
}.

(** The namespace returned by [parser.parse_args()]. *)
Record Namespace : Type := {
  static_n_jobs : string;
  n_jobs : string;
  static_params_file : option string;
  params_file : option string;
  params_str : option string
}.

Definition supplied {A} (o : option A) : nat :=
  match o with
  | Some _ => 1%nat
  | None => 0%nat
  end.

(** [parser.parse_args()]: the two positionals are optional ([nargs="?"])
    and filled in order; a third positional word is an unrecognized
    argument; two supplied members of one group are an error. *)
Definition parse_args (cl : CommandLine) : result Namespace :=
  match positionals cl with
  | _ :: _ :: _ :: _ => Raise SystemExit2
  | ps =>
      let p1 := ps !! 0%nat in
      let p2 := ps !! 1%nat in
      if Nat.ltb 1 (supplied p1 + supplied (opt_n_jobs cl)) then Raise SystemExit2
      else if Nat.ltb 1 (supplied p2 + supplied (opt_params_file cl)
                         + supplied (opt_params_str cl))
      then Raise SystemExit2
      else Ok {| static_n_jobs := default "-1" p1;
                 n_jobs := default "-1" (opt_n_jobs cl);
                 static_params_file := p2;
                 params_file := opt_params_file cl;
                 params_str := opt_params_str cl |}
  end.

(** ** Job count (lines 61-62, 67-68) *)

Inductive n_jobs_value : Type :=
  | NInt (z : Z)
  | NFloat (q : Q).

(** [int(N_JOBS) if not N_JOBS.startswith("0.") else float(N_JOBS)] *)
Definition convert_n_jobs (s : string) : result n_jobs_value :=
  if negb (PyStr.startswith s "0.")
  then NInt <$> of_option ValueError (PyNum.py_int s)
  else NFloat <$> of_option ValueError (PyNum.py_float s).

(** [N_JOBS] after line 68; [co_cpus] is [os.getenv("CO_CPUS")]. *)
Definition resolve_n_jobs (args : Namespace) (co_cpus : option string)
  : result n_jobs_value :=
  let N_JOBS := PyStr.or_str (static_n_jobs args) (n_jobs args) in
  N_JOBS ← convert_n_jobs N_JOBS;
  match co_cpus with
  | Some N_JOBS_CO => NInt <$> of_option ValueError (PyNum.py_int N_JOBS_CO)
  | None => Ok N_JOBS
  end.

(** ** Parameter source (lines 63-64, 70-78) *)

Inductive params_source : Type :=
  | FromFile (path : string)
  | FromString (json : string)
  | DefaultFile.     (* ["params.json"] *)

Definition resolve_params_source (args : Namespace) : params_source :=
  let PARAMS_FILE := PyStr.or_opt (static_params_file args) (params_file args) in
  let PARAMS_STR := params_str args in
  match PARAMS_FILE with
  | Some f => FromFile f
  | None =>
      match PARAMS_STR with
      | Some s => FromString s
      | None => DefaultFile
      end
  end.

(** The precedence in the words of the specification, read on the command
    line as given: explicit file path, then positional file path, then
    inline string, then the default file. *)
Definition spec_params_source (cl : CommandLine) : params_source :=
  match opt_params_file cl with
  | Some f => FromFile f
  | None =>
      match positionals cl !! 1%nat with
      | Some f => FromFile f
      | None =>
          match opt_params_str cl with
          | Some s => FromString s
          | None => DefaultFile
          end
      end
  end.

(** The same for the job count: environment override, then [--n-jobs],
    then the positional, then ["-1"]. *)
Definition spec_n_jobs_source (cl : CommandLine) (co_cpus : option string) : string :=
  match co_cpus with
  | Some v => v
  | None =>
      match opt_n_jobs cl with
      | Some v => v
      | None => default "-1" (positionals cl !! 0%nat)
      end
  end.

(** ** Quality metrics and the curation query

    A metric is a binary64 value of a pandas column.  The script only
    compares metrics with thresholds, so a metric is modelled by its place
    in the IEEE order: not-a-number, an infinity, or a finite number, that
    number being a rational.  Every comparison with not-a-number is false. *)

Inductive float64 : Type :=
  | FNaN
  | FNegInf
  | FFinite (q : Q)
  | FPosInf.

Definition Qltb (x y : Q) : bool := Qnum x * QDen y <? Qnum y * QDen x.

(** [x < t] and [x > t] for a column value [x] and a numeric literal [t]. *)
Definition flt (x : float64) (t : Q) : bool :=
  match x with
  | FNaN => false
  | FNegInf => true
  | FFinite q => Qltb q t
  | FPosInf => false
  end.

Definition fgt (x : float64) (t : Q) : bool :=
  match x with
  | FNaN => false
  | FNegInf => false
  | FFinite q => Qltb t q
  | FPosInf => true
  end.

(** One row of [analyzer.get_extension("quality_metrics").get_data()],
    restricted to the three columns the script names.  The table is taken
    to have the three columns, as the data model of the specification says;
    [query] raises on a table without one of them. *)
Record MetricsRow : Type := {
  isi_violations_ratio : float64;
  presence_ratio : float64;
  amplitude_cutoff : float64
}.

(** The data frame: rows in order, each with its index value (a unit id).
    A list, not a map: pandas allows a repeated index value. *)
Definition DataFrame : Type := list (Z * MetricsRow).

(** The query string is a conjunction of comparisons of a column with a
    number; it is kept as the list of its clauses.  Formatting a threshold
    into the string with an f-string and reading it back in [DataFrame.query]
    gives the same number. *)
Inductive column : Type := ISI_VIOLATIONS_RATIO | PRESENCE_RATIO | AMPLITUDE_CUTOFF.
Inductive comparison : Type := LessThan | GreaterThan.
Record clause : Type := { col : column; cmp : comparison; bound : Q }.
Definition query : Type := list clause.

Definition column_value (r : MetricsRow) (c : column) : float64 :=
  match c with
  | ISI_VIOLATIONS_RATIO => isi_violations_ratio r
  | PRESENCE_RATIO => presence_ratio r
  | AMPLITUDE_CUTOFF => amplitude_cutoff r
  end.

Definition eval_clause (r : MetricsRow) (c : clause) : bool :=
  match cmp c with
  | LessThan => flt (column_value r (col c)) (bound c)
  | GreaterThan => fgt (column_value r (col c)) (bound c)
  end.

Definition eval_query (q : query) (r : MetricsRow) : bool := forallb (eval_clause r) q.

(** [qm.query(curation_query)] *)
Definition df_query (qm : DataFrame) (q : query) : DataFrame :=
  List.filter (fun ir => eval_query q (snd ir)) qm.

(** [df.index.values] *)
Definition index_values (df : DataFrame) : list Z := List.map fst df.

(** Lines 123 and 141: the three-clause query. *)
Definition full_query (isi_violations_ratio_thr presence_ratio_thr amplitude_cutoff_thr : Q)
  : query :=
  [ {| col := ISI_VIOLATIONS_RATIO; cmp := LessThan; bound := isi_violations_ratio_thr |};
    {| col := PRESENCE_RATIO; cmp := GreaterThan; bound := presence_ratio_thr |};
    {| col := AMPLITUDE_CUTOFF; cmp := LessThan; bound := amplitude_cutoff_thr |} ].

(** Lines 136-138: the query of test mode. *)
Definition test_query (isi_violations_ratio_thr amplitude_cutoff_thr : Q) : query :=
  [ {| col := ISI_VIOLATIONS_RATIO; cmp := LessThan; bound := isi_violations_ratio_thr |};
    {| col := AMPLITUDE_CUTOFF; cmp := LessThan; bound := amplitude_cutoff_thr |} ].

(** ** The sorting analyzer

    What the script reads from the object returned by
    [si.load_sorting_analyzer_or_waveforms]: the unit ids
    ([analyzer.unit_ids] is [analyzer.sorting.unit_ids]) and the data of the
    ["quality_metrics"] extension; [get_extension] returns [None] when the
    extension was not computed.  Unit ids are integers here; the script only
    tests them for equality. *)
Record SortingAnalyzer : Type := {
  unit_ids : list Z;
  quality_metrics : option DataFrame
}.

(** [unit in curated_unit_ids] on a numpy array *)
Definition np_in (unit : Z) (arr : list Z) : bool := existsb (Z.eqb unit) arr.

(** Line 182 *)
Definition default_qc (curated_unit_ids : list Z) (analyzer : SortingAnalyzer) : list bool :=
  List.map (fun unit => if np_in unit curated_unit_ids then true else false)
           (unit_ids analyzer).

(** [int(np.sum(mask))] *)
Definition np_sum (mask : list bool) : Z :=
  Z.of_nat (List.length (List.filter (fun b => b) mask)).

(** ** Directory entries and folder discovery *)

Record DirEntry : Type := { name : string; is_dir : bool }.

(** Lines 88-92.  Python reads [a and b or c and d] as [(a and b) or (c and d)]. *)
Definition ecephys_sorted_folders (listing : list DirEntry) : list DirEntry :=
  List.filter
    (fun p => (is_dir p && PyStr.contains "ecephys" (name p))
              || (PyStr.contains "behavior" (name p) && PyStr.contains "sorted" (name p)))
    listing.

(** The qualifying entries in the words of the specification: a
    subdirectory whose name contains "ecephys", or contains both "behavior"
    and "sorted". *)
Definition spec_sorted_asset (p : DirEntry) : bool :=
  is_dir p && (PyStr.contains "ecephys" (name p)
               || (PyStr.contains "behavior" (name p) && PyStr.contains "sorted" (name p))).

Inductive mode : Type := SingleAsset | TestMode | PipelineMode.

Definition test_folder_name : string := "postprocessing_pipeline_output_test".

(** [(data_folder / "postprocessing_pipeline_output_test").is_dir()] *)
Definition has_test_folder (listing : list DirEntry) : bool :=
  existsb (fun p => String.eqb (name p) test_folder_name && is_dir p) listing.

(** Lines 125-142, the branch taken. *)
Definition select_mode (listing : list DirEntry) : result mode :=
  let folders := ecephys_sorted_folders listing in
  if Nat.ltb 0 (List.length folders) then
    if Nat.eqb (List.length folders) 1 then Ok SingleAsset
    else Raise (AssertionError "Attach one sorted asset at a time")
  else if has_test_folder listing then Ok TestMode
  else Ok PipelineMode.

(** The variable [pipeline_mode]: set to [True] on line 125 and to [False]
    only in the first branch (line 131). *)
Definition pipeline_mode_of (m : mode) : bool :=
  match m with
  | SingleAsset => false
  | TestMode => true
  | PipelineMode => true
  end.

(** A path below [data_folder], as its components. *)
Definition path : Type := list string.

Definition postprocessed_base_folder (m : mode) (listing : list DirEntry) : path :=
  match m with
  | SingleAsset =>
      match ecephys_sorted_folders listing with
      | f :: _ => [name f; "postprocessed"]
      | [] => []
      end
  | TestMode => [test_folder_name]
  | PipelineMode => []
  end.

(** Lines 147-154 *)
Definition postprocessed_folders (pipeline_mode : bool) (listing : list DirEntry)
  : list DirEntry :=
  if pipeline_mode then
    List.filter (fun p => PyStr.contains "postprocessed_" (name p)) listing
  else
    List.filter (fun p => negb (PyStr.contains "postprocessed-sorting" (name p)) && is_dir p)
                listing.

(** Lines 158-163 *)
Definition recording_name_of (pipeline_mode : bool) (folder_name : string) : string :=
  let recording_name :=
    if pipeline_mode then PyStr.join "_" (PyStr.from1 (PyStr.split "_" folder_name))
    else folder_name in
  if PyStr.endswith recording_name ".zarr"
  then PyStr.slice_to recording_name (PyStr.find recording_name ".zarr")
  else recording_name.

(** The suffix rule in the words of the specification: a trailing ".zarr"
    is stripped, and a name without it is left unchanged. *)
Definition spec_strip_zarr (recording_name : string) : string :=
  if PyStr.endswith recording_name ".zarr"
  then substring 0 (String.length recording_name - 5) recording_name
  else recording_name.

(** ** Parameters, provenance and the event trace *)

(** A value of the [job_kwargs] object. *)
Inductive job_value : Type :=
  | JNum (v : n_jobs_value)
  | JStr (s : string)
  | JBool (b : bool).

(** The parameters document: the two sub-objects the script subscripts
    ([None] when the key is absent).  The [curation] object maps threshold
    names to JSON numbers. *)
Record ProcessingParams : Type := {
  job_kwargs : option (gmap string job_value);
  curation : option (gmap string Q)
}.

(** The dictionary [curation_params] as handed to [DataProcess]: the
    thresholds still present, and the entry ["recording_name"] of line 193. *)
Record CurationParams : Type := {
  thresholds : gmap string Q;
  recording_name : option string
}.

(** Line 195 *)
Record CurationOutputs : Type := {
  total_units : Z;
  passing_qc : Z;
  failing_qc : Z
}.

Inductive note : Type :=
  | NoteQuery (q : query)                 (* "Curation query: ...\n" *)
  | NotePassing (n_passing n_units : Z).  (* "n/m passing default QC.\n" *)

(** Lines 197-208.  The two timestamps are wall-clock readings and are left
    out. *)
Record DataProcess : Type := {
  dp_name : string;
  software_version : string;
  input_location : string;
  output_location : string;
  code_url : string;
  parameters : CurationParams;
  outputs : CurationOutputs;
  notes : list note
}.

Inductive log_record : Type :=
  | LogCustomParams (file : string)
  | LogSetup (subject_id session_name : string)
  | LogBasicConfig
  | LogCuration
  | LogTestMode
  | LogQuery (q : query)
  | LogCurating (recording : string)
  | LogSkipping (recording : string)   (* "Spike sorting failed on ... Skipping curation" *)
  | LogPassing (n_passing n_units : Z)
  | LogTime.

(** What a run does to the outside, in order.  File names are relative to
    [results_folder]. *)
Inductive event : Type :=
  | Info (r : log_record)
  | SetGlobalJobKwargs (kw : gmap string job_value)
  | NpSave (file : string) (arr : list bool)
  | WriteJson (file : string) (doc : DataProcess).

(** A program: the events it produced, and how it ended.  Events produced
    before an exception stay. *)
Definition prog (A : Type) : Type := (list event * result A)%type.

Definition emit (e : event) : prog unit := ([e], Ok tt).
Definition lift {A} (r : result A) : prog A := ([], r).

#[global] Instance prog_ret : MRet prog := fun _ a => ([], Ok a).
#[global] Instance prog_bind : MBind prog := fun _ _ f m =>
  match m with
  | (evs, Ok a) => let '(evs', r) := f a in ((evs ++ evs')%list, r)
  | (evs, Raise e) => (evs, Raise e)
  end.

(** ** The outside world *)

Record World : Type := {
  (** [os.getenv("CO_CPUS")] *)
  getenv_CO_CPUS : option string;
  (** [json.load(open(file))]; [None] when either step raises *)
  load_json_file : string -> option ProcessingParams;
  (** [json.loads(text)] *)
  json_loads : string -> option ProcessingParams;
  (** [folder.iterdir()] for a folder below [data_folder]; [None] when it raises *)
  iterdir : path -> option (list DirEntry);
  (** [json.load(open(f))[key]] for an entry [f] of [data_folder] *)
  read_metadata : string -> string -> option string;
  (** [si.load_sorting_analyzer_or_waveforms(folder)]; [None] when it raises *)
  load_sorting_analyzer_or_waveforms : path -> option SortingAnalyzer;
  HAVE_AIND_LOG_UTILS : bool
}.

Definition URL : string := "https://github.com/AllenNeuralDynamics/aind-ephys-curation".
Definition VERSION : string := "1.0".
Definition data_process_prefix : string := "data_process_curation".

(** ** The per-recording loop (lines 155-210) *)

(** What the loop body needs from the code before it. *)
Record Context : Type := {
  pipeline_mode : bool;
  curation_query : query;
  base_folder : path
}.

(** The variables the loop body updates. *)
Record LoopState : Type := {
  curation_notes : list note;
  curation_params : CurationParams
}.

Definition qc_file (recording : string) : string := "qc_" ++ recording ++ ".npy".
Definition process_json_file (recording : string) : string :=
  data_process_prefix ++ "_" ++ recording ++ ".json".

Definition curate_recording (w : World) (ctx : Context) (st : LoopState)
    (postprocessed_folder : DirEntry) : prog LoopState :=
  let recording := recording_name_of (pipeline_mode ctx) (name postprocessed_folder) in
  let curation_output_process_json := process_json_file recording in
  match load_sorting_analyzer_or_waveforms w (base_folder ctx ++ [name postprocessed_folder])%list with
  | None =>
      emit (Info (LogSkipping recording));;
      let mock_qc : list bool := [] in
      emit (NpSave (qc_file recording) mock_qc);;
      mret st
  | Some analyzer =>
      emit (Info (LogCurating recording));;
      qm ← lift (of_option AttributeError (quality_metrics analyzer));
      let qm_curated := df_query qm (curation_query ctx) in
      let curated_unit_ids := index_values qm_curated in
      let mask := default_qc curated_unit_ids analyzer in
      let n_passing := np_sum mask in
      let n_units := Z.of_nat (List.length (unit_ids analyzer)) in
      emit (Info (LogPassing n_passing n_units));;
      let curation_notes' := (curation_notes st ++ [NotePassing n_passing n_units])%list in
      emit (NpSave (qc_file recording) mask);;
      let curation_params' :=
        {| thresholds := thresholds (curation_params st);
           recording_name := Some recording |} in
      let curation_outputs :=
        {| total_units := n_units; passing_qc := n_passing;
           failing_qc := n_units - n_passing |} in
      (if pipeline_mode ctx then
         emit (WriteJson curation_output_process_json
                 {| dp_name := "Ephys curation";
                    software_version := VERSION;
                    input_location := "../data";
                    output_location := "../results";
                    code_url := URL;
                    parameters := curation_params';
                    outputs := curation_outputs;
                    notes := curation_notes' |})
       else mret tt);;
      mret {| curation_notes := curation_notes'; curation_params := curation_params' |}
  end.

Fixpoint curation_loop (w : World) (ctx : Context) (st : LoopState)
    (folders : list DirEntry) : prog LoopState :=
  match folders with
  | [] => mret st
  | postprocessed_folder :: rest =>
      st' ← curate_recording w ctx st postprocessed_folder;
      curation_loop w ctx st' rest
  end.

(** ** The script (lines 54-214) *)

(** Lines 95-105: the last matching file wins. *)
Fixpoint scan_metadata (w : World) (listing : list DirEntry) (acc : string * string)
  : result (string * string) :=
  match listing with
  | [] => Ok acc
  | f :: rest =>
      subject_id ←
        (if PyStr.contains "subject.json" (name f)
         then of_option (KeyError "subject_id") (read_metadata w (name f) "subject_id")
         else Ok (fst acc));
      session_name ←
        (if PyStr.contains "data_description.json" (name f)
         then of_option (KeyError "name") (read_metadata w (name f) "name")
         else Ok (snd acc));
      scan_metadata w rest (subject_id, session_name)
  end.

Definition subscript (d : gmap string Q) (key : string) : result Q :=
  of_option (KeyError key) (d !! key).

Definition load_processing_params (w : World) (src : params_source) : prog ProcessingParams :=
  match src with
  | FromFile f =>
      emit (Info (LogCustomParams f));;
      lift (of_option OSError (load_json_file w f))
  | FromString s => lift (of_option ValueError (json_loads w s))
  | DefaultFile => lift (of_option OSError (load_json_file w "params.json"))
  end.

(** Lines 123 and 136-141: the query of each branch. *)
Definition query_of_mode (m : mode)
    (isi_violations_ratio_thr presence_ratio_thr amplitude_cutoff_thr : Q) : query :=
  match m with
  | SingleAsset => full_query isi_violations_ratio_thr presence_ratio_thr amplitude_cutoff_thr
  | TestMode => test_query isi_violations_ratio_thr amplitude_cutoff_thr
  | PipelineMode => full_query isi_violations_ratio_thr presence_ratio_thr amplitude_cutoff_thr
  end.

(** Line 139: [del curation_params["presence_ratio_threshold"]] in test mode. *)
Definition params_of_mode (m : mode) (params : gmap string Q) : gmap string Q :=
  match m with
  | SingleAsset => params
  | TestMode => delete "presence_ratio_threshold" params
  | PipelineMode => params
  end.

Definition context_of (m : mode) (listing : list DirEntry)
    (isi_violations_ratio_thr presence_ratio_thr amplitude_cutoff_thr : Q) : Context :=
  {| pipeline_mode := pipeline_mode_of m;
     curation_query :=
       query_of_mode m isi_violations_ratio_thr presence_ratio_thr amplitude_cutoff_thr;
     base_folder := postprocessed_base_folder m listing |}.

(** Lines 54-154: everything before the loop.  Returns the context, the
    initial loop variables and the folders to visit. *)
Definition prepare (w : World) (cl : CommandLine)
  : prog (Context * LoopState * list DirEntry) :=
  args ← lift (parse_args cl);
  N_JOBS ← lift (resolve_n_jobs args (getenv_CO_CPUS w));
  processing_params ← load_processing_params w (resolve_params_source args);
  kw ← lift (of_option (KeyError "job_kwargs") (job_kwargs processing_params));
  emit (SetGlobalJobKwargs (<["n_jobs" := JNum N_JOBS]> kw));;
  params ← lift (of_option (KeyError "curation") (curation processing_params));
  listing ← lift (of_option OSError (iterdir w []));
  meta ← lift (scan_metadata w listing ("undefined", "undefined"));
  emit (Info (if HAVE_AIND_LOG_UTILS w then LogSetup (fst meta) (snd meta)
              else LogBasicConfig));;
  emit (Info LogCuration);;
  isi_violations_ratio_thr ← lift (subscript params "isi_violations_ratio_threshold");
  presence_ratio_thr ← lift (subscript params "presence_ratio_threshold");
  amplitude_cutoff_thr ← lift (subscript params "amplitude_cutoff_threshold");
  m ← lift (select_mode listing);
  (match m with
   | TestMode => emit (Info LogTestMode)
   | _ => mret tt
   end);;
  let ctx :=
    context_of m listing isi_violations_ratio_thr presence_ratio_thr amplitude_cutoff_thr in
  emit (Info (LogQuery (curation_query ctx)));;
  entries ← lift (of_option OSError (iterdir w (base_folder ctx)));
  mret (ctx,
        {| curation_notes := [NoteQuery (curation_query ctx)];
           curation_params := {| thresholds := params_of_mode m params;
                                 recording_name := None |} |},
        postprocessed_folders (pipeline_mode ctx) entries).

Definition main (w : World) (cl : CommandLine) : prog unit :=
  prepared ← prepare w cl;
  let '(ctx, st, folders) := prepared in
  curation_loop w ctx st folders;;
  emit (Info LogTime).

(** ** Reading a trace *)

(** The arrays saved with [np.save], in order. *)
Definition saved_masks (evs : list event) : list (string * list bool) :=
  omap (fun e => match e with NpSave f arr => Some (f, arr) | _ => None end) evs.

(** The provenance documents written, in order. *)
Definition written_json (evs : list event) : list (string * DataProcess) :=
  omap (fun e => match e with WriteJson f doc => Some (f, doc) | _ => None end) evs.

Definition json_files (evs : list event) : list string := List.map fst (written_json evs).

(** The job counts handed to [si.set_global_job_kwargs], in order. *)
Definition effective_n_jobs (evs : list event) : list (option job_value) :=
  omap (fun e => match e with
                 | SetGlobalJobKwargs kw => Some (kw !! "n_jobs")
                 | _ => None
                 end) evs.

(** A trace that writes no file into [results_folder]. *)
Definition quiet (evs : list event) : Prop :=
  saved_masks evs = [] /\ written_json evs = [].

(** The recordings for which a skip notice was logged, in order. *)
Definition skipped (evs : list event) : list string :=
  omap (fun e => match e with Info (LogSkipping r) => Some r | _ => None end) evs.

(** The values the loop body computes for a recording that loaded with its
    metrics: the mask, the counts, the loop variables afterwards and the
    provenance document. *)
Definition mask_of (ctx : Context) (analyzer : SortingAnalyzer) (qm : DataFrame) : list bool :=
  default_qc (index_values (df_query qm (curation_query ctx))) analyzer.

Definition n_units_of (analyzer : SortingAnalyzer) : Z :=
  Z.of_nat (List.length (unit_ids analyzer)).

Definition outputs_of (ctx : Context) (analyzer : SortingAnalyzer) (qm : DataFrame)
  : CurationOutputs :=
  {| total_units := n_units_of analyzer;
     passing_qc := np_sum (mask_of ctx analyzer qm);
     failing_qc := n_units_of analyzer - np_sum (mask_of ctx analyzer qm) |}.

Definition state_after (ctx : Context) (st : LoopState) (recording : string)
    (analyzer : SortingAnalyzer) (qm : DataFrame) : LoopState :=
  {| curation_notes :=
       (curation_notes st ++
        [NotePassing (np_sum (mask_of ctx analyzer qm)) (n_units_of analyzer)])%list;
     curation_params := {| thresholds := thresholds (curation_params st);
                           recording_name := Some recording |} |}.

Definition document_of (ctx : Context) (st : LoopState) (recording : string)
    (analyzer : SortingAnalyzer) (qm : DataFrame) : DataProcess :=
  {| dp_name := "Ephys curation";
     software_version := VERSION;
     input_location := "../data";
     output_location := "../results";
     code_url := URL;
     parameters := curation_params (state_after ctx st recording analyzer qm);
     outputs := outputs_of ctx analyzer qm;
     notes := curation_notes (state_after ctx st recording analyzer qm) |}.

(** The folder handed to the loader, and the events of a skipped recording. *)
Definition folder_of (ctx : Context) (p : DirEntry) : path :=
  (base_folder ctx ++ [name p])%list.

Definition recording_of (ctx : Context) (p : DirEntry) : string :=
  recording_name_of (pipeline_mode ctx) (name p).

(** The one way the loop body can raise: an analyzer that loads without the
    ["quality_metrics"] extension.  A folder is well-formed when that does
    not happen for it. *)
Definition has_metrics_if_loaded (w : World) (ctx : Context) (p : DirEntry) : Prop :=
  forall analyzer,
    load_sorting_analyzer_or_waveforms w (folder_of ctx p) = Some analyzer ->
    quality_metrics analyzer <> None.

(** ** Sample inputs *)

Module Samples.

Definition row (isi pr amp : Q) : MetricsRow :=
  {| isi_violations_ratio := FFinite isi; presence_ratio := FFinite pr;
     amplitude_cutoff := FFinite amp |}.

(** The example of the specification: two units, the second with too many
    ISI violations. *)
Definition two_units : SortingAnalyzer :=
  {| unit_ids := [0; 1];
     quality_metrics := Some [(0, row 0.2 0.95 0.05); (1, row 0.6 0.95 0.05)] |}.

Definition thresholds_doc : gmap string Q :=
  <["isi_violations_ratio_threshold" := 0.5%Q]>
  (<["presence_ratio_threshold" := 0.9%Q]>
  (<["amplitude_cutoff_threshold" := 0.1%Q]> ∅)).

Definition params_doc : ProcessingParams :=
  {| job_kwargs := Some ∅; curation := Some thresholds_doc |}.

Definition no_options (words : list string) : CommandLine :=
  {| positionals := words; opt_n_jobs := None; opt_params_file := None;
     opt_params_str := None |}.

(** A world whose [data_folder] has the given entries, whose postprocessed
    base folder has the given path and entries, and where exactly the
    folders named in [loadable] load, each as [two_units]. *)
Definition world (co_cpus : option string) (data : list DirEntry) (base : path)
    (entries : list DirEntry) (loadable : list string) : World :=
  {| getenv_CO_CPUS := co_cpus;
     load_json_file := fun f => if String.eqb f "params.json" then Some params_doc else None;
     json_loads := fun _ => None;
     iterdir := fun p =>
       if bool_decide (p = []) then Some data
       else if bool_decide (p = base) then Some entries
       else None;
     read_metadata := fun _ _ => None;
     load_sorting_analyzer_or_waveforms := fun p =>
       match last p with
       | Some n => if existsb (String.eqb n) loadable then Some two_units else None
       | None => None
       end;
     HAVE_AIND_LOG_UTILS := false |}.

Definition dir (n : string) : DirEntry := {| name := n; is_dir := true |}.
Definition file (n : string) : DirEntry := {| name := n; is_dir := false |}.

(** Pipeline mode: two recordings, the second of which does not load. *)
Definition pipeline_world : World :=
  world None [dir "postprocessed_rec1"; dir "postprocessed_rec2.zarr"] []
        [dir "postprocessed_rec1"; dir "postprocessed_rec2.zarr"] ["postprocessed_rec1"].

(** Test mode: the test folder is present, with one recording that loads. *)
Definition test_world : World :=
  world None [dir test_folder_name] [test_folder_name]
        [dir "postprocessed_rec1"] ["postprocessed_rec1"].

(** Single-asset mode: one attached sorted asset, with one recording. *)
Definition single_asset_world : World :=
  world None [dir "ecephys_0001_sorted"] ["ecephys_0001_sorted"; "postprocessed"]
        [dir "rec1.zarr"] ["rec1.zarr"].

Definition pipeline_ctx : Context := context_of PipelineMode [] 0.5 0.9 0.1.

Definition st0 : LoopState :=
  {| curation_notes := [];
     curation_params := {| thresholds := thresholds_doc; recording_name := None |} |}.

Definition two_units_table : DataFrame :=
  [(0, row 0.2 0.95 0.05); (1, row 0.6 0.95 0.05)].

(** A sorted asset attached next to a regular file of the same session. *)
Definition asset_and_file : list DirEntry :=
  [dir "ecephys_0001_sorted"; file "behavior_0001_sorted.json"].

(** Only [--n-jobs 4] on the command line. *)
Definition only_named_n_jobs : CommandLine :=
  {| positionals := []; opt_n_jobs := Some "4"; opt_params_file := None;
     opt_params_str := None |}.

(** A job count and an empty word as the positional parameter file. *)
Definition empty_positional_params : CommandLine := no_options ["4"; ""].

End Samples.

(** ** Further definitions used to state properties of the loop *)

(** The note the loop body appends for a folder: one for a recording that
    loaded with its metrics, none for a recording that did not load. *)
Definition passing_note (w : World) (ctx : Context) (p : DirEntry) : option note :=
  match load_sorting_analyzer_or_waveforms w (folder_of ctx p) with
  | Some analyzer =>
      match quality_metrics analyzer with
      | Some qm => Some (NotePassing (np_sum (mask_of ctx analyzer qm)) (n_units_of analyzer))
      | None => None
      end
  | None => None
  end.

Definition passing_notes (w : World) (ctx : Context) (folders : list DirEntry) : list note :=
  omap (passing_note w ctx) folders.

(** The calls of [si.set_global_job_kwargs], in order. *)
Definition global_job_kwargs (evs : list event) : list (gmap string job_value) :=
  omap (fun e => match e with SetGlobalJobKwargs kw => Some kw | _ => None end) evs.

Module MoreSamples.

(** An analyzer that loads without the ["quality_metrics"] extension. *)
Definition no_metrics : SortingAnalyzer := {| unit_ids := [0; 1]; quality_metrics := None |}.

(** A world like [Samples.world] in which the folders named in [bare] load
    without their metrics, and in which metadata files hold the given
    values. *)
Definition world (data : list DirEntry) (base : path) (entries : list DirEntry)
    (loadable bare : list string) (metadata : string -> string -> option string) : World :=
  {| getenv_CO_CPUS := None;
     load_json_file := fun f =>
       if String.eqb f "params.json" then Some Samples.params_doc else None;
     json_loads := fun _ => None;
     iterdir := fun p =>
       if bool_decide (p = []) then Some data
       else if bool_decide (p = base) then Some entries
       else None;
     read_metadata := metadata;
     load_sorting_analyzer_or_waveforms := fun p =>
       match last p with
       | Some n =>
           if existsb (String.eqb n) bare then Some no_metrics
           else if existsb (String.eqb n) loadable then Some Samples.two_units
           else None
       | None => None
       end;
     HAVE_AIND_LOG_UTILS := true |}.

(** Metadata files of one session. *)
Definition session_metadata (f key : string) : option string :=
  if String.eqb f "rec_subject.json" && String.eqb key "subject_id" then Some "717121"
  else if String.eqb f "rec_data_description.json" && String.eqb key "name"
       then Some "ecephys_717121_2024-06-16"
       else None.

Definition three_folders : list DirEntry :=
  [Samples.dir "postprocessed_rec1"; Samples.dir "postprocessed_rec2";
   Samples.dir "postprocessed_rec3"].

(** Pipeline mode, three recordings: the first loads, the second loads
    without metrics, the third loads. *)
Definition broken_second_world : World :=
  world three_folders [] three_folders ["postprocessed_rec1"; "postprocessed_rec3"]
        ["postprocessed_rec2"] session_metadata.

(** Pipeline mode, three recordings: the second does not load. *)
Definition failed_second_world : World :=
  world three_folders [] three_folders ["postprocessed_rec1"; "postprocessed_rec3"]
        [] session_metadata.

(** The command line [4 nowhere.json]: a parameter file that does not exist. *)
Definition missing_params_file : CommandLine := Samples.no_options ["4"; "nowhere.json"].

(** The context and the loop variables with which [Samples.test_world]
    enters the loop. *)
Definition test_ctx : Context :=
  context_of TestMode [Samples.dir test_folder_name] 0.5 0.9 0.1.

Definition test_st : LoopState :=
  {| curation_notes := [NoteQuery (test_query 0.5 0.1)];
     curation_params :=
       {| thresholds := delete "presence_ratio_threshold" Samples.thresholds_doc;
          recording_name := None |} |}.

(** The folders of [Samples.pipeline_world] and the provenance document
    the loop writes for the first of them from [Samples.st0]. *)
Definition two_folders : list DirEntry :=
  [Samples.dir "postprocessed_rec1"; Samples.dir "postprocessed_rec2.zarr"].

Definition rec1_doc : DataProcess :=
  document_of Samples.pipeline_ctx Samples.st0 "rec1" Samples.two_units
    Samples.two_units_table.

(** A parameters document without [presence_ratio_threshold], and a test-mode
    world that reads it. *)
Definition two_thresholds : gmap string Q :=
  <["isi_violations_ratio_threshold" := 0.5%Q]>
  (<["amplitude_cutoff_threshold" := 0.1%Q]> ∅).

Definition no_presence_doc : ProcessingParams :=
  {| job_kwargs := Some ∅; curation := Some two_thresholds |}.

Definition no_presence_world : World :=
  {| getenv_CO_CPUS := None;
     load_json_file := fun f => if String.eqb f "params.json" then Some no_presence_doc else None;
     json_loads := fun _ => None;
     iterdir := fun p =>
       if bool_decide (p = []) then Some [Samples.dir test_folder_name]
       else if bool_decide (p = [test_folder_name]) then Some [Samples.dir "postprocessed_rec1"]
       else None;
     read_metadata := fun _ _ => None;
     load_sorting_analyzer_or_waveforms := fun _ => Some Samples.two_units;
     HAVE_AIND_LOG_UTILS := false |}.

End MoreSamples.

(** * Properties *)

(** ** The program monad and traces *)

Lemma bind_events {A B} (m : prog A) (f : A -> prog B) :
  fst (m ≫= f) =
  (fst m ++ match snd m with
            | Ok a => fst (f a)
            | Raise _ => []
            end)%list.
Proof.
  destruct m as [evs [a | e]]; cbn.
  - destruct (f a); reflexivity.
  - symmetry; apply app_nil_r.
Qed.

Lemma bind_result {A B} (m : prog A) (f : A -> prog B) :
  snd (m ≫= f) =
  match snd m with
  | Ok a => snd (f a)
  | Raise e => Raise e
  end.
Proof.
  destruct m as [evs [a | e]]; cbn; [destruct (f a) |]; reflexivity.
Qed.

Lemma bind_assoc {A B C} (m : prog A) (f : A -> prog B) (g : B -> prog C) :
  (m ≫= f) ≫= g = m ≫= (fun a => f a ≫= g).
Proof.
  destruct m as [evs [a | e]]; cbn; [| reflexivity].
  destruct (f a) as [evs1 [b | e1]]; cbn; [| reflexivity].
  destruct (g b) as [evs2 r]; cbn. by rewrite app_assoc.
Qed.

Lemma saved_masks_app (e1 e2 : list event) :
  saved_masks (e1 ++ e2) = (saved_masks e1 ++ saved_masks e2)%list.
Proof. apply omap_app. Qed.

Lemma written_json_app (e1 e2 : list event) :
  written_json (e1 ++ e2) = (written_json e1 ++ written_json e2)%list.
Proof. apply omap_app. Qed.

(** ** One pass of the loop body, case by case *)

Section LoopBody.

Variable w : World.
Variable ctx : Context.
Variable st : LoopState.
Variable p : DirEntry.

Lemma curate_recording_failed :
  load_sorting_analyzer_or_waveforms w (folder_of ctx p) = None ->
  curate_recording w ctx st p =
  ([Info (LogSkipping (recording_of ctx p)); NpSave (qc_file (recording_of ctx p)) []],
   Ok st).
Proof.
  intros Hload. unfold curate_recording. fold (folder_of ctx p). rewrite Hload. reflexivity.
Qed.

Lemma curate_recording_no_metrics analyzer :
  load_sorting_analyzer_or_waveforms w (folder_of ctx p) = Some analyzer ->
  quality_metrics analyzer = None ->
  curate_recording w ctx st p =
  ([Info (LogCurating (recording_of ctx p))], Raise AttributeError).
Proof.
  intros Hload Hqm. unfold curate_recording. fold (folder_of ctx p).
  rewrite Hload, Hqm. reflexivity.
Qed.

Lemma curate_recording_loaded analyzer qm :
  load_sorting_analyzer_or_waveforms w (folder_of ctx p) = Some analyzer ->
  quality_metrics analyzer = Some qm ->
  curate_recording w ctx st p =
  ((Info (LogCurating (recording_of ctx p))
    :: Info (LogPassing (np_sum (mask_of ctx analyzer qm)) (n_units_of analyzer))
    :: NpSave (qc_file (recording_of ctx p)) (mask_of ctx analyzer qm)
    :: (if pipeline_mode ctx
        then [WriteJson (process_json_file (recording_of ctx p))
                        (document_of ctx st (recording_of ctx p) analyzer qm)]
        else [])),
   Ok (state_after ctx st (recording_of ctx p) analyzer qm)).
Proof.
  intros Hload Hqm. unfold curate_recording. fold (folder_of ctx p).
  rewrite Hload, Hqm. unfold recording_of.
  destruct (pipeline_mode ctx); reflexivity.
Qed.

End LoopBody.

(** ** The mask *)

Lemma Qltb_lt (x y : Q) : Qltb x y = true <-> (x < y)%Q.
Proof. unfold Qltb, Qlt. apply Z.ltb_lt. Qed.

Lemma flt_finite (q t : Q) : flt (FFinite q) t = true <-> (q < t)%Q.
Proof. apply Qltb_lt. Qed.

Lemma fgt_finite (q t : Q) : fgt (FFinite q) t = true <-> (t < q)%Q.
Proof. apply Qltb_lt. Qed.

(** A unit with a not-a-number metric fails the clause on that metric. *)
Lemma nan_fails (t : Q) : flt FNaN t = false /\ fgt FNaN t = false.
Proof. split; reflexivity. Qed.

Lemma np_in_spec (unit : Z) (arr : list Z) : np_in unit arr = true <-> In unit arr.
Proof.
  unfold np_in. rewrite existsb_exists. split.
  - intros (x & Hx & Heq). apply Z.eqb_eq in Heq. by subst.
  - intros Hin. exists unit. split; [done | apply Z.eqb_refl].
Qed.

Lemma curated_unit_ids_spec (qm : DataFrame) (q : query) (unit : Z) :
  In unit (index_values (df_query qm q)) <->
  exists row, In (unit, row) qm /\ eval_query q row = true.
Proof.
  unfold index_values, df_query. rewrite in_map_iff. split.
  - intros ([u row] & Hu & Hin). cbn in Hu. subst u.
    apply filter_In in Hin as [Hin Hq]. eauto.
  - intros (row & Hin & Hq). exists (unit, row). split; [done |].
    apply filter_In. auto.
Qed.

Lemma default_qc_length (curated : list Z) (analyzer : SortingAnalyzer) :
  List.length (default_qc curated analyzer) = List.length (unit_ids analyzer).
Proof. unfold default_qc. apply length_map. Qed.

Lemma default_qc_nth (curated : list Z) (analyzer : SortingAnalyzer) (i : nat) (unit : Z) :
  nth_error (unit_ids analyzer) i = Some unit ->
  nth_error (default_qc curated analyzer) i = Some (np_in unit curated).
Proof.
  intros Hu. unfold default_qc. rewrite nth_error_map, Hu. cbn.
  by destruct (np_in unit curated).
Qed.

Lemma eval_query_of_mode (m : mode) (isi pr amp : Q) (row : MetricsRow) :
  eval_query (query_of_mode m isi pr amp) row = true <->
  flt (isi_violations_ratio row) isi = true
  /\ (m <> TestMode -> fgt (presence_ratio row) pr = true)
  /\ flt (amplitude_cutoff row) amp = true.
Proof.
  destruct m; cbn; rewrite ?andb_true_iff; intuition congruence.
Qed.




(** C2, as the code has it.  When the analyzer loads and has its
    quality-metrics table, the one mask saved for the recording has as many
    entries as the analyzer reports units, zero included, and the loop goes
    on; when the analyzer loads without the quality-metrics extension, the
    pass logs its notice, saves no mask and raises [AttributeError]; when
    the analyzer does not load, the mask saved is the empty array and the
    loop goes on with its variables unchanged. *)
Theorem mask_length_is_unit_count (w : World) (ctx : Context) (st : LoopState)
    (p : DirEntry) :
  (forall analyzer qm,
      load_sorting_analyzer_or_waveforms w (folder_of ctx p) = Some analyzer ->
      quality_metrics analyzer = Some qm ->
      exists mask,
        saved_masks (fst (curate_recording w ctx st p)) =
          [(qc_file (recording_of ctx p), mask)]
        /\ Z.of_nat (List.length mask) = n_units_of analyzer
        /\ (unit_ids analyzer = [] -> mask = [])
        /\ snd (curate_recording w ctx st p) =
             Ok (state_after ctx st (recording_of ctx p) analyzer qm))
  /\ (forall analyzer,
        load_sorting_analyzer_or_waveforms w (folder_of ctx p) = Some analyzer ->
        quality_metrics analyzer = None ->
        saved_masks (fst (curate_recording w ctx st p)) = []
        /\ fst (curate_recording w ctx st p) = [Info (LogCurating (recording_of ctx p))]
        /\ snd (curate_recording w ctx st p) = Raise AttributeError)
  /\ (load_sorting_analyzer_or_waveforms w (folder_of ctx p) = None ->
      saved_masks (fst (curate_recording w ctx st p)) = [(qc_file (recording_of ctx p), [])]
      /\ snd (curate_recording w ctx st p) = Ok st).
Proof.
  split; [| split].
  - intros analyzer qm Hload Hqm. exists (mask_of ctx analyzer qm).
    rewrite (curate_recording_loaded _ _ _ _ _ _ Hload Hqm).
    split; [by destruct (pipeline_mode ctx) |].
    split; [unfold mask_of, n_units_of; by rewrite default_qc_length |].
    split; [| reflexivity].
    intros Hnil. unfold mask_of, default_qc. by rewrite Hnil.
  - intros analyzer Hload Hqm.
    by rewrite (curate_recording_no_metrics _ _ _ _ _ Hload Hqm).
  - intros Hload. by rewrite (curate_recording_failed _ _ _ _ Hload).
Qed.

(** C2, as the claim has it, fails: the second folder of this batch has a
    loadable analyzer, one without the quality-metrics extension; the pass
    for it saves no mask and raises, and the whole run ends with the
    exception, having saved a mask for the first folder only. *)
Lemma loadable_analyzer_without_metrics_saves_no_mask :
  load_sorting_analyzer_or_waveforms MoreSamples.broken_second_world
    (folder_of Samples.pipeline_ctx (Samples.dir "postprocessed_rec2"))
  = Some MoreSamples.no_metrics
  /\ curate_recording MoreSamples.broken_second_world Samples.pipeline_ctx Samples.st0
       (Samples.dir "postprocessed_rec2")
     = ([Info (LogCurating "rec2")], Raise AttributeError)
  /\ snd (main MoreSamples.broken_second_world (Samples.no_options []))
     = Raise AttributeError
  /\ saved_masks (fst (main MoreSamples.broken_second_world (Samples.no_options [])))
     = [("qc_rec1.npy", [true; false])].
Proof. repeat split; vm_compute; reflexivity. Qed.

(** ** The loop *)

Lemma prog_left_id {A B} (a : A) (f : A -> prog B) : (mret a : prog A) ≫= f = f a.
Proof. cbn. by destruct (f a). Qed.

Lemma bind_ext {A B} (m : prog A) (f g : A -> prog B) :
  (forall a, f a = g a) -> m ≫= f = m ≫= g.
Proof.
  intros Hfg. destruct m as [evs [a | e]]; cbn; [| reflexivity]. by rewrite Hfg.
Qed.

Lemma curation_loop_app (w : World) (ctx : Context) (l1 l2 : list DirEntry) :
  forall st,
    curation_loop w ctx st (l1 ++ l2) =
    curation_loop w ctx st l1 ≫= (fun st1 => curation_loop w ctx st1 l2).
Proof.
  induction l1 as [| p l1 IH]; intros st.
  - cbn [app curation_loop]. by rewrite prog_left_id.
  - cbn [app curation_loop]. rewrite bind_assoc. apply bind_ext. intros st'. apply IH.
Qed.

Lemma curation_loop_cons_failed (w : World) (ctx : Context) (st : LoopState)
    (p : DirEntry) (rest : list DirEntry) :
  load_sorting_analyzer_or_waveforms w (folder_of ctx p) = None ->
  curation_loop w ctx st (p :: rest) =
  (emit (Info (LogSkipping (recording_of ctx p)));;
   emit (NpSave (qc_file (recording_of ctx p)) []);;
   curation_loop w ctx st rest).
Proof.
  intros Hload. cbn [curation_loop]. rewrite (curate_recording_failed _ _ _ _ Hload).
  cbn. by destruct (curation_loop w ctx st rest).
Qed.

Lemma all_failed_loop (w : World) (ctx : Context) (st : LoopState)
    (folders : list DirEntry) :
  Forall (fun p => load_sorting_analyzer_or_waveforms w (folder_of ctx p) = None) folders ->
  curation_loop w ctx st folders =
  (flat_map (fun p => [Info (LogSkipping (recording_of ctx p));
                       NpSave (qc_file (recording_of ctx p)) []]) folders,
   Ok st).
Proof.
  induction 1 as [| p rest Hp _ IH]; [reflexivity |].
  rewrite (curation_loop_cons_failed _ _ _ _ _ Hp), IH. reflexivity.
Qed.

Lemma curation_loop_cons_events (w : World) (ctx : Context) (st : LoopState)
    (p : DirEntry) (rest : list DirEntry) :
  fst (curation_loop w ctx st (p :: rest)) =
  (fst (curate_recording w ctx st p) ++
   match snd (curate_recording w ctx st p) with
   | Ok st' => fst (curation_loop w ctx st' rest)
   | Raise _ => []
   end)%list.
Proof. cbn [curation_loop]. apply bind_events. Qed.

Lemma curation_loop_cons_result (w : World) (ctx : Context) (st : LoopState)
    (p : DirEntry) (rest : list DirEntry) :
  snd (curation_loop w ctx st (p :: rest)) =
  match snd (curate_recording w ctx st p) with
  | Ok st' => snd (curation_loop w ctx st' rest)
  | Raise e => Raise e
  end.
Proof. cbn [curation_loop]. apply bind_result. Qed.

Lemma skipped_app (e1 e2 : list event) :
  skipped (e1 ++ e2) = (skipped e1 ++ skipped e2)%list.
Proof. apply omap_app. Qed.

(** A batch of well-formed folders runs to its end; every folder that did
    not load has its skip notice and its empty mask in the trace, and every
    folder that loaded has its mask there. *)
Lemma loop_completes (w : World) (ctx : Context) (folders : list DirEntry) :
  Forall (has_metrics_if_loaded w ctx) folders ->
  forall st,
    (exists st', snd (curation_loop w ctx st folders) = Ok st')
    /\ (forall p,
          In p folders ->
          load_sorting_analyzer_or_waveforms w (folder_of ctx p) = None ->
          In (recording_of ctx p) (skipped (fst (curation_loop w ctx st folders)))
          /\ In (qc_file (recording_of ctx p), [])
                (saved_masks (fst (curation_loop w ctx st folders))))
    /\ (forall p analyzer qm,
          In p folders ->
          load_sorting_analyzer_or_waveforms w (folder_of ctx p) = Some analyzer ->
          quality_metrics analyzer = Some qm ->
          In (qc_file (recording_of ctx p), mask_of ctx analyzer qm)
             (saved_masks (fst (curation_loop w ctx st folders)))).
Proof.
  induction 1 as [| p0 rest Hp0 _ IH]; intros st.
  { split; [by exists st | split; intros; contradiction]. }
  rewrite curation_loop_cons_events, curation_loop_cons_result.
  rewrite skipped_app, saved_masks_app.
  destruct (load_sorting_analyzer_or_waveforms w (folder_of ctx p0)) as [a0 |] eqn:Hload0.
  - destruct (quality_metrics a0) as [qm0 |] eqn:Hqm0; [| by destruct (Hp0 a0)].
    rewrite (curate_recording_loaded _ _ _ _ _ _ Hload0 Hqm0). cbn [fst snd].
    destruct (IH (state_after ctx st (recording_of ctx p0) a0 qm0)) as (Hok & Hfail & Hmask).
    split; [exact Hok | split].
    + intros p [<- | Hin] Hload; [congruence |].
      destruct (Hfail p Hin Hload). split; apply in_or_app; by right.
    + intros p analyzer qm [<- | Hin] Hload Hqm; apply in_or_app.
      * left. assert (a0 = analyzer) as -> by congruence.
        assert (qm0 = qm) as -> by congruence.
        destruct (pipeline_mode ctx); cbn; by left.
      * right. by apply (Hmask p).
  - rewrite (curate_recording_failed _ _ _ _ Hload0). cbn [fst snd].
    destruct (IH st) as (Hok & Hfail & Hmask).
    split; [exact Hok | split].
    + intros p [<- | Hin] Hload.
      * split; apply in_or_app; left; cbn; by left.
      * destruct (Hfail p Hin Hload). split; apply in_or_app; by right.
    + intros p analyzer qm [<- | Hin] Hload Hqm; [congruence |].
      apply in_or_app. right. by apply (Hmask p).
Qed.

(** C3.  A recording whose analyzer does not load costs the batch nothing
    but that recording: the loop over [pre ++ p :: post] is the loop over
    [pre], then a skip notice and an empty mask for [p], then the loop over
    [post] from the very variables the loop over [pre] left.  Hence a batch
    of well-formed folders runs to its end whichever analyzers fail to
    load: each failed recording has its skip notice and its empty mask in
    the trace, and each recording that loaded has its mask there. *)
Theorem load_failure_skips_only_that_recording (w : World) (ctx : Context)
    (st : LoopState) :
  (forall pre p post,
      load_sorting_analyzer_or_waveforms w (folder_of ctx p) = None ->
      curation_loop w ctx st (pre ++ p :: post) =
      (st1 ← curation_loop w ctx st pre;
       emit (Info (LogSkipping (recording_of ctx p)));;
       emit (NpSave (qc_file (recording_of ctx p)) []);;
       curation_loop w ctx st1 post))
  /\ (forall folders,
        Forall (has_metrics_if_loaded w ctx) folders ->
        (exists st', snd (curation_loop w ctx st folders) = Ok st')
        /\ (forall p,
              In p folders ->
              load_sorting_analyzer_or_waveforms w (folder_of ctx p) = None ->
              In (recording_of ctx p) (skipped (fst (curation_loop w ctx st folders)))
              /\ In (qc_file (recording_of ctx p), [])
                    (saved_masks (fst (curation_loop w ctx st folders))))
        /\ (forall p analyzer qm,
              In p folders ->
              load_sorting_analyzer_or_waveforms w (folder_of ctx p) = Some analyzer ->
              quality_metrics analyzer = Some qm ->
              In (qc_file (recording_of ctx p), mask_of ctx analyzer qm)
                 (saved_masks (fst (curation_loop w ctx st folders)))))
  /\ (forall folders,
        Forall (fun p => load_sorting_analyzer_or_waveforms w (folder_of ctx p) = None)
               folders ->
        snd (curation_loop w ctx st folders) = Ok st
        /\ skipped (fst (curation_loop w ctx st folders)) =
             List.map (recording_of ctx) folders
        /\ saved_masks (fst (curation_loop w ctx st folders)) =
             List.map (fun p => (qc_file (recording_of ctx p), [])) folders
        /\ written_json (fst (curation_loop w ctx st folders)) = []).
Proof.
  split; [| split].
  - intros pre p post Hload. rewrite curation_loop_app. apply bind_ext. intros st1.
    by apply curation_loop_cons_failed.
  - intros folders Hall. by apply loop_completes.
  - intros folders Hall. rewrite (all_failed_loop _ _ _ _ Hall). cbn [fst snd].
    split; [reflexivity |].
    clear Hall. induction folders as [| p rest IH]; [done |].
    destruct IH as (IH1 & IH2 & IH3). cbn. unfold skipped, saved_masks, written_json in *.
    by rewrite IH1, IH2, IH3.
Qed.

(** Every provenance document in the trace of the loop was written by the
    pass for some folder whose analyzer loaded with its metrics, in a mode
    with [pipeline_mode] set, right after that pass saved its mask. *)
Lemma loop_provenance_origin (w : World) (ctx : Context) (folders : list DirEntry) :
  forall st file doc,
    In (file, doc) (written_json (fst (curation_loop w ctx st folders))) ->
    exists p analyzer qm st1,
      In p folders
      /\ load_sorting_analyzer_or_waveforms w (folder_of ctx p) = Some analyzer
      /\ quality_metrics analyzer = Some qm
      /\ pipeline_mode ctx = true
      /\ file = process_json_file (recording_of ctx p)
      /\ doc = document_of ctx st1 (recording_of ctx p) analyzer qm
      /\ In (qc_file (recording_of ctx p), mask_of ctx analyzer qm)
            (saved_masks (fst (curation_loop w ctx st folders))).
Proof.
  induction folders as [| p rest IH]; intros st file doc Hin; [contradiction |].
  rewrite curation_loop_cons_events in Hin |- *.
  rewrite written_json_app in Hin. rewrite saved_masks_app.
  destruct (load_sorting_analyzer_or_waveforms w (folder_of ctx p)) as [analyzer |] eqn:Hload.
  - destruct (quality_metrics analyzer) as [qm |] eqn:Hqm.
    + rewrite (curate_recording_loaded _ _ _ _ _ _ Hload Hqm) in Hin |- *.
      cbn [fst snd] in Hin |- *. apply in_app_or in Hin as [Hin | Hin].
      * destruct (pipeline_mode ctx) eqn:Hpm; cbn in Hin; [| contradiction].
        destruct Hin as [Heq | []]. injection Heq as <- <-.
        exists p, analyzer, qm, st. repeat split; try done; [by left |].
        apply in_or_app. left. cbn. by left.
      * destruct (IH _ _ _ Hin) as (p' & a' & qm' & st1 & Hp' & Hl' & Hq' & Hpm & Hf & Hd & Hm).
        exists p', a', qm', st1. repeat split; try done; [by right |].
        apply in_or_app. by right.
    + rewrite (curate_recording_no_metrics _ _ _ _ _ Hload Hqm) in Hin.
      cbn in Hin. contradiction.
  - rewrite (curate_recording_failed _ _ _ _ Hload) in Hin |- *.
    cbn [fst snd] in Hin |- *. apply in_app_or in Hin as [Hin | Hin]; [contradiction |].
    destruct (IH _ _ _ Hin) as (p' & a' & qm' & st1 & Hp' & Hl' & Hq' & Hpm & Hf & Hd & Hm).
    exists p', a', qm', st1. repeat split; try done; [by right |].
    apply in_or_app. by right.
Qed.

(** C10.  Every provenance document the loop writes reports counts with
    [passing_qc + failing_qc = total_units]; it belongs to a folder of the
    batch whose analyzer loaded, [total_units] is the number of unit ids of
    that analyzer, and [passing_qc] is the number of true entries of the
    mask saved for that recording, which has one entry per unit. *)
Theorem provenance_counts_add_up (w : World) (ctx : Context) (st : LoopState)
    (folders : list DirEntry) (file : string) (doc : DataProcess) :
  In (file, doc) (written_json (fst (curation_loop w ctx st folders))) ->
  passing_qc (outputs doc) + failing_qc (outputs doc) = total_units (outputs doc)
  /\ exists p analyzer mask,
       In p folders
       /\ load_sorting_analyzer_or_waveforms w (folder_of ctx p) = Some analyzer
       /\ file = process_json_file (recording_of ctx p)
       /\ In (qc_file (recording_of ctx p), mask)
             (saved_masks (fst (curation_loop w ctx st folders)))
       /\ List.length mask = List.length (unit_ids analyzer)
       /\ total_units (outputs doc) = Z.of_nat (List.length (unit_ids analyzer))
       /\ passing_qc (outputs doc) =
            Z.of_nat (List.length (List.filter (fun b => b) mask)).
Proof.
  intros Hin.
  destruct (loop_provenance_origin _ _ _ _ _ _ Hin)
    as (p & analyzer & qm & st1 & Hp & Hload & Hqm & Hpm & -> & -> & Hmask).
  split.
  - cbn. lia.
  - exists p, analyzer, (mask_of ctx analyzer qm). repeat split; try done.
    unfold mask_of. apply default_qc_length.
Qed.

Lemma mask_length_is_unit_count_witness :
  (exists mask,
      saved_masks (fst (curate_recording Samples.pipeline_world Samples.pipeline_ctx
                          Samples.st0 (Samples.dir "postprocessed_rec1"))) =
        [(qc_file (recording_of Samples.pipeline_ctx (Samples.dir "postprocessed_rec1")), mask)]
      /\ Z.of_nat (List.length mask) = n_units_of Samples.two_units
      /\ (unit_ids Samples.two_units = [] -> mask = [])
      /\ snd (curate_recording Samples.pipeline_world Samples.pipeline_ctx
                Samples.st0 (Samples.dir "postprocessed_rec1")) =
           Ok (state_after Samples.pipeline_ctx Samples.st0
                 (recording_of Samples.pipeline_ctx (Samples.dir "postprocessed_rec1"))
                 Samples.two_units Samples.two_units_table))
  /\ (saved_masks (fst (curate_recording Samples.pipeline_world Samples.pipeline_ctx
                          Samples.st0 (Samples.dir "postprocessed_rec2.zarr"))) =
        [(qc_file (recording_of Samples.pipeline_ctx (Samples.dir "postprocessed_rec2.zarr")),
          [])]
      /\ snd (curate_recording Samples.pipeline_world Samples.pipeline_ctx
                Samples.st0 (Samples.dir "postprocessed_rec2.zarr")) = Ok Samples.st0).
Proof.
  split.
  - apply (proj1 (mask_length_is_unit_count Samples.pipeline_world Samples.pipeline_ctx
                    Samples.st0 (Samples.dir "postprocessed_rec1"))
                 Samples.two_units Samples.two_units_table); reflexivity.
  - apply (proj2 (proj2 (mask_length_is_unit_count Samples.pipeline_world
                           Samples.pipeline_ctx Samples.st0
                           (Samples.dir "postprocessed_rec2.zarr")))); reflexivity.
Defined.

Lemma load_failure_skips_only_that_recording_witness :
  curation_loop Samples.pipeline_world Samples.pipeline_ctx Samples.st0
    ([Samples.dir "postprocessed_rec1"] ++
     Samples.dir "postprocessed_rec2.zarr" :: [Samples.dir "postprocessed_rec1"]) =
  (st1 ← curation_loop Samples.pipeline_world Samples.pipeline_ctx Samples.st0
          [Samples.dir "postprocessed_rec1"];
   emit (Info (LogSkipping
                 (recording_of Samples.pipeline_ctx (Samples.dir "postprocessed_rec2.zarr"))));;
   emit (NpSave (qc_file (recording_of Samples.pipeline_ctx
                            (Samples.dir "postprocessed_rec2.zarr"))) []);;
   curation_loop Samples.pipeline_world Samples.pipeline_ctx st1
     [Samples.dir "postprocessed_rec1"]).
Proof.
  apply (proj1 (load_failure_skips_only_that_recording Samples.pipeline_world
                  Samples.pipeline_ctx Samples.st0)
               [Samples.dir "postprocessed_rec1"] (Samples.dir "postprocessed_rec2.zarr")
               [Samples.dir "postprocessed_rec1"]).
  reflexivity.
Defined.

Lemma provenance_counts_add_up_witness :
  In ("data_process_curation_rec1.json",
      document_of Samples.pipeline_ctx Samples.st0 "rec1"
        Samples.two_units Samples.two_units_table)
     (written_json
        (fst (curation_loop Samples.pipeline_world Samples.pipeline_ctx Samples.st0
                [Samples.dir "postprocessed_rec1"; Samples.dir "postprocessed_rec2.zarr"])))
  /\ passing_qc (outputs (document_of Samples.pipeline_ctx Samples.st0 "rec1"
                            Samples.two_units Samples.two_units_table))
     + failing_qc (outputs (document_of Samples.pipeline_ctx Samples.st0 "rec1"
                              Samples.two_units Samples.two_units_table))
     = total_units (outputs (document_of Samples.pipeline_ctx Samples.st0 "rec1"
                               Samples.two_units Samples.two_units_table)).
Proof.
  assert (Hin : In ("data_process_curation_rec1.json",
                    document_of Samples.pipeline_ctx Samples.st0 "rec1"
                      Samples.two_units Samples.two_units_table)
                   (written_json
                      (fst (curation_loop Samples.pipeline_world Samples.pipeline_ctx
                              Samples.st0
                              [Samples.dir "postprocessed_rec1";
                               Samples.dir "postprocessed_rec2.zarr"]))))
    by (left; reflexivity).
  split; [exact Hin |].
  exact (proj1 (provenance_counts_add_up _ _ _ _ _ _ Hin)).
Defined.

(** ** Provenance and the [pipeline_mode] flag *)

Lemma no_provenance_without_flag (w : World) (ctx : Context) (st : LoopState)
    (folders : list DirEntry) :
  pipeline_mode ctx = false ->
  written_json (fst (curation_loop w ctx st folders)) = [].
Proof.
  intros Hpm.
  destruct (written_json (fst (curation_loop w ctx st folders))) as [| [file doc] rest] eqn:Hw;
    [reflexivity |].
  assert (Hin : In (file, doc) (written_json (fst (curation_loop w ctx st folders))))
    by (rewrite Hw; by left).
  destruct (loop_provenance_origin _ _ _ _ _ _ Hin) as (? & ? & ? & ? & _ & _ & _ & Hpm' & _).
  congruence.
Qed.

(** C4, as the code has it.  The flag [pipeline_mode] is cleared in
    single-asset mode only.  In single-asset mode the loop writes no
    provenance document, whatever the folders.  In pipeline mode and in test
    mode the pass for a recording whose analyzer loaded with its metrics
    writes exactly one provenance document, under the recording's file name;
    the pass for a recording whose analyzer did not load writes none. *)
Theorem provenance_follows_pipeline_flag (w : World) (m : mode)
    (listing : list DirEntry) (isi pr amp : Q) (st : LoopState) :
  (pipeline_mode (context_of m listing isi pr amp) = true <-> m <> SingleAsset)
  /\ (m = SingleAsset ->
      forall folders,
        written_json (fst (curation_loop w (context_of m listing isi pr amp) st folders)) = [])
  /\ (m <> SingleAsset ->
      forall p analyzer qm,
        load_sorting_analyzer_or_waveforms w
          (folder_of (context_of m listing isi pr amp) p) = Some analyzer ->
        quality_metrics analyzer = Some qm ->
        written_json (fst (curate_recording w (context_of m listing isi pr amp) st p)) =
          [(process_json_file (recording_of (context_of m listing isi pr amp) p),
            document_of (context_of m listing isi pr amp) st
              (recording_of (context_of m listing isi pr amp) p) analyzer qm)])
  /\ (forall p,
        load_sorting_analyzer_or_waveforms w
          (folder_of (context_of m listing isi pr amp) p) = None ->
        written_json (fst (curate_recording w (context_of m listing isi pr amp) st p)) = []).
Proof.
  split; [| split; [| split]].
  - destruct m; cbn; split; congruence.
  - intros -> folders. by apply no_provenance_without_flag.
  - intros Hm p analyzer qm Hload Hqm.
    rewrite (curate_recording_loaded _ _ _ _ _ _ Hload Hqm).
    destruct m; [congruence | reflexivity | reflexivity].
  - intros p Hload. by rewrite (curate_recording_failed _ _ _ _ Hload).
Qed.

Lemma provenance_follows_pipeline_flag_witness :
  written_json
    (fst (curation_loop Samples.single_asset_world
            (context_of SingleAsset [Samples.dir "ecephys_0001_sorted"] 0.5 0.9 0.1)
            Samples.st0 [Samples.dir "rec1.zarr"])) = []
  /\ written_json
       (fst (curate_recording Samples.test_world
               (context_of TestMode [Samples.dir test_folder_name] 0.5 0.9 0.1)
               Samples.st0 (Samples.dir "postprocessed_rec1"))) =
     [(process_json_file
         (recording_of (context_of TestMode [Samples.dir test_folder_name] 0.5 0.9 0.1)
            (Samples.dir "postprocessed_rec1")),
       document_of (context_of TestMode [Samples.dir test_folder_name] 0.5 0.9 0.1)
         Samples.st0
         (recording_of (context_of TestMode [Samples.dir test_folder_name] 0.5 0.9 0.1)
            (Samples.dir "postprocessed_rec1"))
         Samples.two_units Samples.two_units_table)].
Proof.
  split.
  - apply (proj1 (proj2 (provenance_follows_pipeline_flag Samples.single_asset_world
                           SingleAsset [Samples.dir "ecephys_0001_sorted"] 0.5 0.9 0.1
                           Samples.st0))).
    reflexivity.
  - apply (proj1 (proj2 (proj2 (provenance_follows_pipeline_flag Samples.test_world
                                  TestMode [Samples.dir test_folder_name] 0.5 0.9 0.1
                                  Samples.st0)))).
    + discriminate.
    + reflexivity.
    + reflexivity.
Defined.

(** C4, as the claim has it, fails: a run in test mode writes a provenance
    document. *)
Lemma test_mode_writes_provenance :
  select_mode [Samples.dir test_folder_name] = Ok TestMode
  /\ json_files (fst (main Samples.test_world (Samples.no_options []))) =
       ["data_process_curation_rec1.json"]
  /\ snd (main Samples.test_world (Samples.no_options [])) = Ok tt.
Proof. repeat split; vm_compute; reflexivity. Qed.

(** ** The script as a whole *)

Lemma quiet_bind {A B} (m : prog A) (f : A -> prog B) :
  quiet (fst m) -> (forall a, quiet (fst (f a))) -> quiet (fst (m ≫= f)).
Proof.
  intros [Hm1 Hm2] Hf. rewrite bind_events. unfold quiet.
  rewrite saved_masks_app, written_json_app, Hm1, Hm2.
  destruct (snd m) as [a | e]; [apply Hf | done].
Qed.

Lemma quiet_lift {A} (r : result A) : quiet (fst (lift r)).
Proof. done. Qed.

Lemma quiet_info (r : log_record) : quiet (fst (emit (Info r))).
Proof. done. Qed.

Ltac quiet_step :=
  match goal with
  | |- quiet (fst (lift _)) => apply quiet_lift
  | |- quiet (fst (emit (Info _))) => apply quiet_info
  | |- quiet (fst (emit (SetGlobalJobKwargs _))) => done
  | |- quiet (fst (mret _)) => done
  | |- quiet (fst (_ ≫= _)) => apply quiet_bind; [| intros]
  | |- quiet (fst (match ?x with _ => _ end)) => destruct x
  end.

(** Everything before the loop writes no file into [results_folder]. *)
Lemma prepare_quiet (w : World) (cl : CommandLine) : quiet (fst (prepare w cl)).
Proof. unfold prepare, load_processing_params. repeat quiet_step. Qed.

Lemma of_option_ok {A} (e : exn) (o : option A) (a : A) :
  of_option e o = Ok a -> o = Some a.
Proof. destruct o; cbn; congruence. Qed.

Ltac bind_step H :=
  rewrite bind_result in H; cbn [snd fst lift emit] in H;
  try match type of H with
      | context [match ?x with Ok _ => _ | Raise _ => _ end] =>
          destruct x eqn:?; [| discriminate H]
      end.

(** What the loop is run with: the context of the selected mode, the query
    as its first note, and the folders discovered below the base folder. *)
Lemma prepare_context (w : World) (cl : CommandLine) (ctx : Context) (st : LoopState)
    (folders : list DirEntry) :
  snd (prepare w cl) = Ok (ctx, st, folders) ->
  exists listing m params isi pr amp entries,
    iterdir w [] = Some listing
    /\ select_mode listing = Ok m
    /\ params !! "isi_violations_ratio_threshold" = Some isi
    /\ params !! "presence_ratio_threshold" = Some pr
    /\ params !! "amplitude_cutoff_threshold" = Some amp
    /\ ctx = context_of m listing isi pr amp
    /\ iterdir w (base_folder ctx) = Some entries
    /\ folders = postprocessed_folders (pipeline_mode ctx) entries
    /\ st = {| curation_notes := [NoteQuery (curation_query ctx)];
               curation_params := {| thresholds := params_of_mode m params;
                                     recording_name := None |} |}.
Proof.
  unfold prepare. intros H. repeat bind_step H.
  cbn in H. injection H as <- <- <-.
  unfold subscript in *.
  repeat match goal with
         | Hx : of_option _ _ = Ok _ |- _ => apply of_option_ok in Hx
         end.
  eauto 20.
Qed.

Lemma main_events (w : World) (cl : CommandLine) :
  fst (main w cl) =
  (fst (prepare w cl) ++
   match snd (prepare w cl) with
   | Ok (ctx, st, folders) =>
       fst (curation_loop w ctx st folders) ++
       match snd (curation_loop w ctx st folders) with
       | Ok _ => [Info LogTime]
       | Raise _ => []
       end
   | Raise _ => []
   end)%list.
Proof.
  unfold main. rewrite bind_events. f_equal.
  destruct (snd (prepare w cl)) as [[[ctx st] folders] | e]; [| reflexivity].
  rewrite bind_events. f_equal; by destruct (snd (curation_loop w ctx st folders)).
Qed.

(** The files a run writes are those its loop writes. *)
Lemma main_files (w : World) (cl : CommandLine) :
  match snd (prepare w cl) with
  | Ok (ctx, st, folders) =>
      saved_masks (fst (main w cl)) = saved_masks (fst (curation_loop w ctx st folders))
      /\ written_json (fst (main w cl)) =
           written_json (fst (curation_loop w ctx st folders))
  | Raise _ => quiet (fst (main w cl))
  end.
Proof.
  rewrite main_events. destruct (prepare_quiet w cl) as [Hs Hj].
  destruct (snd (prepare w cl)) as [[[ctx st] folders] | e].
  - rewrite !saved_masks_app, !written_json_app, Hs, Hj. cbn [app].
    destruct (snd (curation_loop w ctx st folders)); cbn;
      rewrite ?app_nil_r; by split.
  - unfold quiet. rewrite app_nil_r. by split.
Qed.

(** In a whole run too, every provenance document has counts that add up. *)
Lemma main_provenance_counts (w : World) (cl : CommandLine) (file : string)
    (doc : DataProcess) :
  In (file, doc) (written_json (fst (main w cl))) ->
  passing_qc (outputs doc) + failing_qc (outputs doc) = total_units (outputs doc).
Proof.
  intros Hin. pose proof (main_files w cl) as Hfiles.
  destruct (snd (prepare w cl)) as [[[ctx st] folders] | e].
  - destruct Hfiles as [_ Hj]. rewrite Hj in Hin.
    destruct (loop_provenance_origin _ _ _ _ _ _ Hin)
      as (p & analyzer & qm & st1 & _ & _ & _ & _ & _ & -> & _).
    cbn. lia.
  - destruct Hfiles as [_ Hj]. rewrite Hj in Hin. contradiction.
Qed.

(** In a whole run, provenance is written only with the flag set, that is,
    never in single-asset mode. *)
Lemma main_single_asset_no_provenance (w : World) (cl : CommandLine) (listing : list DirEntry) :
  iterdir w [] = Some listing ->
  select_mode listing = Ok SingleAsset ->
  written_json (fst (main w cl)) = [].
Proof.
  intros Hlist Hmode. pose proof (main_files w cl) as Hfiles.
  destruct (snd (prepare w cl)) as [[[ctx st] folders] | e] eqn:Hprep.
  - destruct Hfiles as [_ ->].
    destruct (prepare_context _ _ _ _ _ Hprep)
      as (listing' & m & params & isi & pr & amp & entries & Hl & Hm & _ & _ & _ & -> & _).
    assert (listing' = listing) as -> by congruence.
    assert (m = SingleAsset) as -> by congruence.
    by apply no_provenance_without_flag.
  - apply Hfiles.
Qed.

(** ** Mode selection *)

(** On directories the filter of the script agrees with the rule of the
    specification; the two differ on entries that are not directories. *)
Lemma sorted_asset_filter_on_dirs (p : DirEntry) :
  is_dir p = true ->
  ((is_dir p && PyStr.contains "ecephys" (name p))
   || (PyStr.contains "behavior" (name p) && PyStr.contains "sorted" (name p)))
  = spec_sorted_asset p.
Proof. unfold spec_sorted_asset. intros ->. reflexivity. Qed.

Lemma sorted_asset_filter_on_files (p : DirEntry) :
  is_dir p = false ->
  spec_sorted_asset p = false
  /\ ((is_dir p && PyStr.contains "ecephys" (name p))
      || (PyStr.contains "behavior" (name p) && PyStr.contains "sorted" (name p)))
     = (PyStr.contains "behavior" (name p) && PyStr.contains "sorted" (name p)).
Proof. unfold spec_sorted_asset. intros ->. split; reflexivity. Qed.

Lemma select_mode_several (listing : list DirEntry) :
  (1 < List.length (ecephys_sorted_folders listing))%nat ->
  select_mode listing = Raise (AssertionError "Attach one sorted asset at a time").
Proof.
  intros Hlen. unfold select_mode.
  destruct (List.length (ecephys_sorted_folders listing)) as [| [| n]]; [lia | lia |].
  reflexivity.
Qed.

Lemma select_mode_one (listing : list DirEntry) :
  List.length (ecephys_sorted_folders listing) = 1%nat ->
  select_mode listing = Ok SingleAsset.
Proof. intros Hlen. unfold select_mode. rewrite Hlen. reflexivity. Qed.

Lemma select_mode_none (listing : list DirEntry) :
  ecephys_sorted_folders listing = [] ->
  select_mode listing = Ok (if has_test_folder listing then TestMode else PipelineMode).
Proof.
  intros Hnil. unfold select_mode. rewrite Hnil. cbn.
  by destruct (has_test_folder listing).
Qed.

(** C5 on the code.  With one attached sorted asset and, next to it, a
    regular file whose name contains "behavior" and "sorted", exactly one
    entry qualifies by the rule of the specification, yet the script counts
    two and stops on its assertion. *)
Theorem regular_file_counted_as_sorted_asset :
  List.filter spec_sorted_asset Samples.asset_and_file = [Samples.dir "ecephys_0001_sorted"]
  /\ ecephys_sorted_folders Samples.asset_and_file = Samples.asset_and_file
  /\ select_mode Samples.asset_and_file =
       Raise (AssertionError "Attach one sorted asset at a time").
Proof. repeat split; reflexivity. Qed.

(** ** Job count *)

(** Whatever is accepted by the parser, the string converted on line 62 does
    not depend on [--n-jobs]: the positional's default ["-1"] is truthy. *)
Lemma n_jobs_option_never_read (cl : CommandLine) (args : Namespace) :
  parse_args cl = Ok args ->
  PyStr.or_str (static_n_jobs args) (n_jobs args) =
  PyStr.or_str (default "-1" (positionals cl !! 0%nat)) "-1".
Proof.
  unfold parse_args.
  destruct (positionals cl) as [| a [| b [| c l]]]; cbn;
    destruct (opt_n_jobs cl); cbn; try discriminate;
    repeat (case_match; try discriminate); intros [= <-]; reflexivity.
Qed.

(** C6 on the code.  With [--n-jobs 4] alone on the command line and no
    [CO_CPUS], the precedence of the specification selects "4", and the
    script runs with [-1]. *)
Theorem named_n_jobs_is_ignored :
  spec_n_jobs_source Samples.only_named_n_jobs None = "4"
  /\ (n_jobs <$> parse_args Samples.only_named_n_jobs) = Ok "4"
  /\ (parse_args Samples.only_named_n_jobs ≫= fun args => resolve_n_jobs args None)
     = Ok (NInt (-1))
  /\ effective_n_jobs (fst (main Samples.pipeline_world Samples.only_named_n_jobs)) =
       [Some (JNum (NInt (-1)))].
Proof. repeat split; vm_compute; reflexivity. Qed.

Lemma startswith_0dot (v : string) :
  PyStr.startswith v "0." = true -> exists r, v = String "0" (String "." r).
Proof.
  unfold PyStr.startswith. rewrite prefix_correct.
  destruct v as [| c1 [| c2 r]]; cbn; try discriminate.
  intros [= -> ->]. eauto.
Qed.

Lemma rstrip_cons_nonspace (c : ascii) (s : string) :
  PyNum.is_space c = false ->
  exists t, PyNum.rstrip (String c s) = String c t /\ t = PyNum.rstrip s.
Proof.
  intros Hc. cbn [PyNum.rstrip]. destruct (PyNum.rstrip s) eqn:Hs; rewrite ?Hc; eauto.
Qed.

(** [int] rejects every string that begins with "0.". *)
Lemma py_int_rejects_fraction (v : string) :
  PyStr.startswith v "0." = true -> PyNum.py_int v = None.
Proof.
  intros Hv. apply startswith_0dot in Hv as [r ->].
  unfold PyNum.py_int, PyNum.strip. cbn [PyNum.lstrip].
  change (PyNum.is_space "0") with false. cbn iota.
  destruct (rstrip_cons_nonspace "0" (String "." r) eq_refl) as (t & -> & ->).
  destruct (rstrip_cons_nonspace "." r eq_refl) as (t & -> & _).
  reflexivity.
Qed.

Lemma convert_n_jobs_raises (s : string) (e : exn) :
  convert_n_jobs s = Raise e -> e = ValueError.
Proof.
  unfold convert_n_jobs.
  destruct (negb (PyStr.startswith s "0."));
    [destruct (PyNum.py_int s) | destruct (PyNum.py_float s)]; cbn; congruence.
Qed.

(** Lines 61-68 on a namespace: the string that [or] selects is converted
    with [float] when it begins with "0." and with [int] otherwise; when
    [CO_CPUS] is set, its value is converted with [int] whatever its form. *)
Lemma n_jobs_conversion (args : Namespace) (co_cpus : option string) :
  (co_cpus = None ->
   PyStr.startswith (PyStr.or_str (static_n_jobs args) (n_jobs args)) "0." = true ->
   resolve_n_jobs args co_cpus =
   NFloat <$> of_option ValueError
                (PyNum.py_float (PyStr.or_str (static_n_jobs args) (n_jobs args))))
  /\ (co_cpus = None ->
      PyStr.startswith (PyStr.or_str (static_n_jobs args) (n_jobs args)) "0." = false ->
      resolve_n_jobs args co_cpus =
      NInt <$> of_option ValueError
                 (PyNum.py_int (PyStr.or_str (static_n_jobs args) (n_jobs args))))
  /\ (forall v n,
        co_cpus = Some v ->
        convert_n_jobs (PyStr.or_str (static_n_jobs args) (n_jobs args)) = Ok n ->
        resolve_n_jobs args co_cpus = NInt <$> of_option ValueError (PyNum.py_int v))
  /\ (forall v,
        co_cpus = Some v ->
        PyStr.startswith v "0." = true ->
        resolve_n_jobs args co_cpus = Raise ValueError).
Proof.
  unfold resolve_n_jobs. repeat split.
  - intros -> Hs. unfold convert_n_jobs. rewrite Hs. cbn.
    by destruct (PyNum.py_float _).
  - intros -> Hs. unfold convert_n_jobs. rewrite Hs. cbn.
    by destruct (PyNum.py_int _).
  - intros v n -> Hn. rewrite Hn. reflexivity.
  - intros v -> Hv.
    destruct (convert_n_jobs _) as [n | e] eqn:Hn; cbn.
    + by rewrite (py_int_rejects_fraction _ Hv).
    + by rewrite (convert_n_jobs_raises _ _ Hn).
Qed.

(** C8, as the code has it.  For a command line the parser accepts: a
    non-empty positional job count is converted with [float] when it begins
    with "0." and with [int] otherwise, and that is the job count when
    [CO_CPUS] is not set; when [CO_CPUS] is set and the command-line string
    converts (as it does when there is no positional word), the job count is
    [int] of the override, whatever its form, so that an override that
    begins with "0." ends the run with a [ValueError] instead of being read
    as a fraction. *)
Theorem command_line_job_count_conversion (cl : CommandLine) (args : Namespace)
    (co_cpus : option string) :
  parse_args cl = Ok args ->
  (forall v,
      positionals cl !! 0%nat = Some v -> v <> "" -> co_cpus = None ->
      (PyStr.startswith v "0." = true ->
       resolve_n_jobs args co_cpus = NFloat <$> of_option ValueError (PyNum.py_float v))
      /\ (PyStr.startswith v "0." = false ->
          resolve_n_jobs args co_cpus = NInt <$> of_option ValueError (PyNum.py_int v)))
  /\ (forall e,
        co_cpus = Some e ->
        (forall n,
            convert_n_jobs (PyStr.or_str (default "-1" (positionals cl !! 0%nat)) "-1") = Ok n ->
            resolve_n_jobs args co_cpus = NInt <$> of_option ValueError (PyNum.py_int e))
        /\ (positionals cl !! 0%nat = None ->
            resolve_n_jobs args co_cpus = NInt <$> of_option ValueError (PyNum.py_int e))
        /\ (PyStr.startswith e "0." = true ->
            resolve_n_jobs args co_cpus = Raise ValueError)).
Proof.
  intros Hargs. pose proof (n_jobs_option_never_read _ _ Hargs) as HN.
  destruct (n_jobs_conversion args co_cpus) as (Hfloat & Hint & Henv & Hfrac).
  rewrite HN in Hfloat, Hint, Henv. split.
  - intros v Hv Hne Hco. rewrite Hv in Hfloat, Hint.
    assert (Hor : PyStr.or_str (default "-1" (Some v)) "-1" = v).
    { unfold PyStr.or_str, PyStr.truthy. cbn.
      destruct (String.eqb_spec v ""); [done | reflexivity]. }
    rewrite Hor in Hfloat, Hint. split; auto.
  - intros e Hco. split; [| split].
    + intros n Hn. by apply (Henv e n).
    + intros Hnone. rewrite Hnone in Henv. by apply (Henv e (NInt (-1))).
    + intros He. by apply (Hfrac e).
Qed.

Lemma command_line_job_count_conversion_witness :
  resolve_n_jobs
    {| static_n_jobs := "0.5"; n_jobs := "-1"; static_params_file := None;
       params_file := None; params_str := None |} None
  = NFloat <$> of_option ValueError (PyNum.py_float "0.5")
  /\ resolve_n_jobs
       {| static_n_jobs := "-1"; n_jobs := "-1"; static_params_file := None;
          params_file := None; params_str := None |} (Some "0.5")
     = Raise ValueError.
Proof.
  split.
  - apply (proj1 (proj1 (command_line_job_count_conversion (Samples.no_options ["0.5"])
                           {| static_n_jobs := "0.5"; n_jobs := "-1";
                              static_params_file := None; params_file := None;
                              params_str := None |} None eq_refl)
                        "0.5" eq_refl ltac:(discriminate) eq_refl));
      reflexivity.
  - apply (proj2 (proj2 (proj2 (command_line_job_count_conversion (Samples.no_options [])
                                  {| static_n_jobs := "-1"; n_jobs := "-1";
                                     static_params_file := None; params_file := None;
                                     params_str := None |} (Some "0.5") eq_refl)
                               "0.5" eq_refl)));
      reflexivity.
Defined.

(** C8, as the claim has it, fails: an environment override "0.5" is not
    read as a fraction; the run ends with a [ValueError]. *)
Lemma env_fraction_is_rejected :
  PyNum.py_float "0.5" = Some 0.5%Q
  /\ (parse_args (Samples.no_options []) ≫= fun args => resolve_n_jobs args (Some "0.5"))
     = Raise ValueError.
Proof. split; reflexivity. Qed.

(** ** Parameter source *)

(** C9, as the code has it.  For a command line the parser accepts, at most
    one of the three parameter sources is supplied; the source used is the
    one the precedence of the specification selects, unless the positional
    path is the empty string, which counts as absent: the default file is
    then read. *)
Theorem params_source_precedence (cl : CommandLine) (args : Namespace) :
  parse_args cl = Ok args ->
  (supplied (positionals cl !! 1%nat) + supplied (opt_params_file cl)
   + supplied (opt_params_str cl) <= 1)%nat
  /\ (positionals cl !! 1%nat <> Some "" ->
      resolve_params_source args = spec_params_source cl)
  /\ (positionals cl !! 1%nat = Some "" -> resolve_params_source args = DefaultFile).
Proof.
  unfold parse_args, resolve_params_source, spec_params_source.
  destruct (positionals cl) as [| a [| b [| c l]]]; cbn [lookup list_lookup];
    try discriminate;
    destruct (opt_n_jobs cl), (opt_params_file cl), (opt_params_str cl);
    cbn; try discriminate; intros [= <-]; cbn;
    (split; [lia | split]); try congruence; try done.
  - intros Hb. destruct (PyStr.truthy b) eqn:Ht; [reflexivity |].
    unfold PyStr.truthy in Ht. apply negb_false_iff, String.eqb_eq in Ht. congruence.
  - intros [= ->]. reflexivity.
Qed.

Lemma params_source_precedence_witness :
  resolve_params_source
    {| static_n_jobs := "4"; n_jobs := "-1"; static_params_file := Some "my_params.json";
       params_file := None; params_str := None |}
  = spec_params_source (Samples.no_options ["4"; "my_params.json"]).
Proof.
  apply (proj1 (proj2 (params_source_precedence
                         (Samples.no_options ["4"; "my_params.json"])
                         {| static_n_jobs := "4"; n_jobs := "-1";
                            static_params_file := Some "my_params.json";
                            params_file := None; params_str := None |} eq_refl))).
  discriminate.
Defined.

(** C9, as the claim has it, fails: an empty positional path is supplied,
    and the default file is read. *)
Lemma empty_positional_path_reads_default :
  spec_params_source Samples.empty_positional_params = FromFile ""
  /\ (resolve_params_source <$> parse_args Samples.empty_positional_params) = Ok DefaultFile.
Proof. split; reflexivity. Qed.

(** ** Recording names *)

Lemma postprocessed_folders_pipeline (listing : list DirEntry) (p : DirEntry) :
  In p (postprocessed_folders true listing) <->
  In p listing /\ PyStr.contains "postprocessed_" (name p) = true.
Proof. unfold postprocessed_folders. apply filter_In. Qed.

Lemma contains_char_cons (x c : ascii) (s : string) :
  PyStr.contains (String x EmptyString) (String c s) =
  Ascii.eqb x c || PyStr.contains (String x EmptyString) s.
Proof.
  cbn [PyStr.contains]. f_equal. unfold String.prefix.
  destruct (ascii_dec x c) as [-> | Hne].
  - rewrite Ascii.eqb_refl. by destruct s.
  - symmetry. by apply Ascii.eqb_neq.
Qed.

Lemma split_nonempty (sep : ascii) (s : string) : PyStr.split sep s <> [].
Proof.
  destruct s as [| c s]; cbn; [done |].
  destruct (Ascii.eqb c sep); [done |]. by destruct (PyStr.split sep s).
Qed.

Lemma join_cons (sep p q : string) (qs : list string) :
  PyStr.join sep (p :: q :: qs) = p ++ sep ++ PyStr.join sep (q :: qs).
Proof. reflexivity. Qed.

Lemma join_split (sep : ascii) (s : string) :
  PyStr.join (String sep EmptyString) (PyStr.split sep s) = s.
Proof.
  induction s as [| c s IH]; [reflexivity |].
  pose proof (split_nonempty sep s) as Hne.
  cbn [PyStr.split]. destruct (PyStr.split sep s) as [| t ts]; [done |].
  destruct (Ascii.eqb c sep) eqn:Hc.
  - apply Ascii.eqb_eq in Hc as ->. rewrite join_cons, IH. reflexivity.
  - destruct ts as [| t' ts].
    + cbn in IH |- *. by rewrite IH.
    + rewrite join_cons in IH |- *. rewrite <- IH. reflexivity.
Qed.

Lemma str_app_nil_l (s : string) : "" ++ s = s.
Proof. reflexivity. Qed.

Lemma str_app_cons (c : ascii) (a b : string) : String c a ++ b = String c (a ++ b).
Proof. reflexivity. Qed.

Lemma str_app_assoc (a b c : string) : (a ++ b) ++ c = a ++ (b ++ c).
Proof.
  induction a as [| x a IH]; [reflexivity |]. by rewrite !str_app_cons, IH.
Qed.

Lemma str_app_length (a b : string) :
  String.length (a ++ b) = (String.length a + String.length b)%nat.
Proof.
  induction a as [| x a IH]; [reflexivity |].
  rewrite str_app_cons. cbn [String.length]. by rewrite IH.
Qed.

Lemma split_first_token (sep : ascii) (a b : string) :
  PyStr.contains (String sep EmptyString) a = false ->
  PyStr.split sep (a ++ String sep b) = a :: PyStr.split sep b.
Proof.
  induction a as [| c a IH]; intros Hno.
  - rewrite str_app_nil_l. cbn [PyStr.split]. by rewrite Ascii.eqb_refl.
  - rewrite contains_char_cons in Hno. apply orb_false_iff in Hno as [Hc Ha].
    rewrite str_app_cons. cbn [PyStr.split]. rewrite Ascii.eqb_sym, Hc, (IH Ha). reflexivity.
Qed.

(** In pipeline mode the name keeps what follows the first underscore. *)
Lemma drop_prefix_token (a b : string) :
  PyStr.contains "_" a = false ->
  PyStr.join "_" (PyStr.from1 (PyStr.split "_" (a ++ "_" ++ b))) = b.
Proof.
  intros Hno. change (a ++ "_" ++ b) with (a ++ String "_" b).
  rewrite (split_first_token _ _ _ Hno). cbn [PyStr.from1 tl]. apply join_split.
Qed.

Lemma endswith_app (a suf : string) : PyStr.endswith (a ++ suf) suf = true.
Proof.
  induction a as [| c a IH].
  - rewrite str_app_nil_l. destruct suf; cbn [PyStr.endswith]; by rewrite String.eqb_refl.
  - rewrite str_app_cons. cbn [PyStr.endswith]. rewrite IH. apply orb_true_r.
Qed.

Lemma prefix_app_long (p u t : string) :
  (String.length p <= String.length u)%nat ->
  String.prefix p (u ++ t) = String.prefix p u.
Proof.
  revert u. induction p as [| x p IH]; intros u Hlen.
  { by destruct u, t. }
  destruct u as [| y u]; cbn [String.length] in Hlen; [lia |].
  rewrite str_app_cons. cbn [String.prefix]. destruct (ascii_dec x y); [| reflexivity].
  apply IH. lia.
Qed.

Lemma find_from_unique_suffix (a : string) :
  forall i,
    PyStr.contains ".zarr" (a ++ ".zar") = false ->
    PyStr.find_from ".zarr" (a ++ ".zarr") i = i + Z.of_nat (String.length a).
Proof.
  induction a as [| c a IH]; intros i Hno.
  - rewrite str_app_nil_l. cbn [String.length]. unfold PyStr.find_from.
    change (String.prefix ".zarr" ".zarr") with true. lia.
  - rewrite str_app_cons in Hno. cbn [PyStr.contains] in Hno.
    apply orb_false_iff in Hno as [Hp Hno].
    rewrite str_app_cons. cbn [PyStr.find_from].
    replace (String c (a ++ ".zarr")) with (String c (a ++ ".zar") ++ "r")
      by (rewrite str_app_cons, str_app_assoc; reflexivity).
    rewrite prefix_app_long, Hp.
    + replace (String c (a ++ ".zar") ++ "r") with (String c (a ++ ".zarr"))
        by (rewrite str_app_cons, str_app_assoc; reflexivity).
      cbn [PyStr.find_from] in IH.
      rewrite (IH _ Hno). cbn [String.length]. lia.
    + cbn [String.length]. rewrite str_app_length. cbn [String.length]. lia.
Qed.

Lemma substring_prefix (a b : string) : substring 0 (String.length a) (a ++ b) = a.
Proof.
  induction a as [| c a IH].
  - rewrite str_app_nil_l. by destruct b.
  - rewrite str_app_cons. cbn [String.length substring]. by rewrite IH.
Qed.

(** Where ".zarr" occurs at the end of the name and nowhere before, the
    script strips exactly the suffix, as the specification says. *)
Lemma strip_single_zarr (a : string) :
  PyStr.contains ".zarr" (a ++ ".zar") = false ->
  spec_strip_zarr (a ++ ".zarr") = a
  /\ recording_name_of false (a ++ ".zarr") = a.
Proof.
  intros Hno.
  assert (Hslice : PyStr.slice_to (a ++ ".zarr") (PyStr.find (a ++ ".zarr") ".zarr") = a).
  { unfold PyStr.find. rewrite (find_from_unique_suffix _ _ Hno).
    unfold PyStr.slice_to. rewrite str_app_length. cbn [String.length].
    replace (0 + Z.of_nat (String.length a) <? 0) with false by (symmetry; apply Z.ltb_ge; lia).
    rewrite Z.min_l by lia. rewrite Z.add_0_l, Nat2Z.id. apply substring_prefix. }
  split.
  - unfold spec_strip_zarr. rewrite endswith_app, str_app_length. cbn [String.length].
    replace (String.length a + 5 - 5)%nat with (String.length a) by lia.
    apply substring_prefix.
  - unfold recording_name_of. by rewrite endswith_app.
Qed.

(** A name that does not end in ".zarr" is left as it is. *)
Lemma no_zarr_unchanged (folder_name : string) :
  PyStr.endswith folder_name ".zarr" = false ->
  recording_name_of false folder_name = folder_name.
Proof. unfold recording_name_of. by intros ->. Qed.

(** C7 on the code.  For a folder name in which ".zarr" occurs before the
    trailing ".zarr", the script cuts the name at the first occurrence:
    stripping the trailing suffix gives "block0.zarr_rec1", the script
    gives "block0", in pipeline mode and outside it. *)
Theorem zarr_cut_at_first_occurrence :
  PyStr.contains "postprocessed_" "postprocessed_block0.zarr_rec1.zarr" = true
  /\ spec_strip_zarr "block0.zarr_rec1.zarr" = "block0.zarr_rec1"
  /\ recording_name_of true "postprocessed_block0.zarr_rec1.zarr" = "block0"
  /\ recording_name_of false "block0.zarr_rec1.zarr" = "block0".
Proof. repeat split; reflexivity. Qed.

(** ** The example of the specification, run through the script *)

Example spec_example_masks :
  saved_masks (fst (main Samples.pipeline_world (Samples.no_options []))) =
  [("qc_rec1.npy", [true; false]); ("qc_rec2.npy", [])].
Proof. vm_compute. reflexivity. Qed.

Example spec_example_single_asset :
  saved_masks (fst (main Samples.single_asset_world (Samples.no_options []))) =
    [("qc_rec1.npy", [true; false])]
  /\ json_files (fst (main Samples.single_asset_world (Samples.no_options []))) = [].
Proof. split; vm_compute; reflexivity. Qed.

(** * Further properties of the script *)

(** ** Mode selection (lines 125-142) *)

(** X1.  The branch taken depends on the number of qualifying entries first
    and on the test folder second: single-asset mode exactly when one entry
    qualifies, whether or not the test folder is there; test mode exactly
    when none qualifies and the test folder is a directory of
    [data_folder]; pipeline mode exactly when none qualifies and there is no
    test folder; and the assertion fails exactly when two or more qualify. *)
Theorem mode_selection_cases (listing : list DirEntry) :
  (select_mode listing = Ok SingleAsset <->
   List.length (ecephys_sorted_folders listing) = 1%nat)
  /\ (select_mode listing = Ok TestMode <->
      ecephys_sorted_folders listing = [] /\ has_test_folder listing = true)
  /\ (select_mode listing = Ok PipelineMode <->
      ecephys_sorted_folders listing = [] /\ has_test_folder listing = false)
  /\ (select_mode listing = Raise (AssertionError "Attach one sorted asset at a time") <->
      (1 < List.length (ecephys_sorted_folders listing))%nat)
  /\ (forall e, select_mode listing = Raise e ->
                e = AssertionError "Attach one sorted asset at a time").
Proof.
  unfold select_mode.
  destruct (ecephys_sorted_folders listing) as [| f [| g rest]]; cbn;
    destruct (has_test_folder listing); cbn;
    repeat split; try intros [? ?]; try intros ?; try congruence; try lia; try done.
Qed.

(** X2.  In single-asset mode the postprocessed base folder is the
    [postprocessed] subfolder of the one qualifying entry, and that entry is
    an entry of [data_folder]. *)
Theorem single_asset_base_folder (listing : list DirEntry) :
  select_mode listing = Ok SingleAsset ->
  exists f,
    ecephys_sorted_folders listing = [f]
    /\ In f listing
    /\ postprocessed_base_folder SingleAsset listing = [name f; "postprocessed"]
    /\ pipeline_mode_of SingleAsset = false.
Proof.
  intros Hm. unfold select_mode in Hm.
  destruct (ecephys_sorted_folders listing) as [| f [| g rest]] eqn:Hf; cbn in Hm;
    [by destruct (has_test_folder listing) | | discriminate].
  exists f. repeat split; try done.
  - assert (Hin : In f (ecephys_sorted_folders listing)) by (rewrite Hf; by left).
    unfold ecephys_sorted_folders in Hin. by apply filter_In in Hin as [Hin _].
  - cbn. by rewrite Hf.
Qed.

Lemma single_asset_base_folder_witness :
  exists f,
    ecephys_sorted_folders [Samples.dir "ecephys_0001_sorted"; Samples.dir test_folder_name]
      = [f]
    /\ In f [Samples.dir "ecephys_0001_sorted"; Samples.dir test_folder_name]
    /\ postprocessed_base_folder SingleAsset
         [Samples.dir "ecephys_0001_sorted"; Samples.dir test_folder_name]
       = [name f; "postprocessed"]
    /\ pipeline_mode_of SingleAsset = false.
Proof.
  apply (single_asset_base_folder
           [Samples.dir "ecephys_0001_sorted"; Samples.dir test_folder_name]).
  reflexivity.
Defined.

(** ** Session metadata (lines 94-105) *)

Lemma scan_metadata_app (w : World) (l1 l2 : list DirEntry) :
  forall acc,
    scan_metadata w (l1 ++ l2) acc =
    scan_metadata w l1 acc ≫= scan_metadata w l2.
Proof.
  induction l1 as [| f l1 IH]; intros acc; [reflexivity |].
  cbn [app scan_metadata].
  destruct (if PyStr.contains "subject.json" (name f)
            then of_option (KeyError "subject_id") (read_metadata w (name f) "subject_id")
            else Ok acc.1) as [subject_id | e]; cbn; [| reflexivity].
  destruct (if PyStr.contains "data_description.json" (name f)
            then of_option (KeyError "name") (read_metadata w (name f) "name")
            else Ok acc.2) as [session_name | e]; cbn; [| reflexivity].
  apply IH.
Qed.

(** X3.  When no entry of [data_folder] has "subject.json" or
    "data_description.json" in its name, no file is read and the two
    identifiers keep their value: "undefined" for the script. *)
Theorem metadata_defaults_without_files (w : World) (listing : list DirEntry)
    (acc : string * string) :
  Forall (fun f => PyStr.contains "subject.json" (name f) = false
                   /\ PyStr.contains "data_description.json" (name f) = false) listing ->
  scan_metadata w listing acc = Ok acc.
Proof.
  intros Hall. revert acc. induction Hall as [| f rest [Hs Hd] _ IH]; intros acc.
  - reflexivity.
  - cbn [scan_metadata]. rewrite Hs, Hd. cbn. destruct acc. apply IH.
Qed.

Lemma metadata_defaults_without_files_witness :
  scan_metadata Samples.pipeline_world
    [Samples.dir "postprocessed_rec1"; Samples.dir "postprocessed_rec2.zarr"]
    ("undefined", "undefined") = Ok ("undefined", "undefined").
Proof.
  apply (metadata_defaults_without_files Samples.pipeline_world
           [Samples.dir "postprocessed_rec1"; Samples.dir "postprocessed_rec2.zarr"]
           ("undefined", "undefined")).
  repeat constructor.
Defined.

(** X4.  The last matching file wins: whatever the files before it gave, a
    later file with "subject.json" in its name (and not "data_description.json")
    that holds a ["subject_id"] sets the subject id and leaves the session
    name as it was. *)
Theorem metadata_last_subject_file_wins (w : World) (before : list DirEntry)
    (f : DirEntry) (acc acc' : string * string) (subject_id : string) :
  scan_metadata w before acc = Ok acc' ->
  PyStr.contains "subject.json" (name f) = true ->
  PyStr.contains "data_description.json" (name f) = false ->
  read_metadata w (name f) "subject_id" = Some subject_id ->
  scan_metadata w (before ++ [f]) acc = Ok (subject_id, snd acc').
Proof.
  intros Hbefore Hs Hd Hread. rewrite scan_metadata_app, Hbefore. cbn.
  rewrite Hs, Hd, Hread. reflexivity.
Qed.

Lemma metadata_last_subject_file_wins_witness :
  scan_metadata
    (MoreSamples.world [] [] [] [] []
       (fun f key => if String.eqb f "b_subject.json" then Some "222" else Some "111"))
    ([Samples.file "a_subject.json"] ++ [Samples.file "b_subject.json"])
    ("undefined", "undefined") = Ok ("222", snd ("111", "undefined")).
Proof.
  apply (metadata_last_subject_file_wins
           (MoreSamples.world [] [] [] [] []
              (fun f key => if String.eqb f "b_subject.json" then Some "222" else Some "111"))
           [Samples.file "a_subject.json"] (Samples.file "b_subject.json")
           ("undefined", "undefined") ("111", "undefined") "222");
    reflexivity.
Defined.

(** X5.  Reading the metadata is not best effort: one entry with
    "subject.json" in its name whose content cannot be read, or has no
    ["subject_id"], makes the scan raise, wherever the entry stands in the
    listing. *)
Theorem metadata_unreadable_subject_is_fatal (w : World) (listing : list DirEntry)
    (f : DirEntry) (acc : string * string) :
  In f listing ->
  PyStr.contains "subject.json" (name f) = true ->
  read_metadata w (name f) "subject_id" = None ->
  exists e, scan_metadata w listing acc = Raise e.
Proof.
  intros Hin Hs Hread. revert acc.
  induction listing as [| g rest IH]; intros acc; [contradiction |].
  destruct Hin as [-> | Hin].
  - cbn [scan_metadata]. rewrite Hs, Hread. cbn. eauto.
  - cbn [scan_metadata].
    destruct (if PyStr.contains "subject.json" (name g)
              then of_option (KeyError "subject_id") (read_metadata w (name g) "subject_id")
              else Ok acc.1) as [subject_id | e]; cbn; [| eauto].
    destruct (if PyStr.contains "data_description.json" (name g)
              then of_option (KeyError "name") (read_metadata w (name g) "name")
              else Ok acc.2) as [session_name | e]; cbn; [| eauto].
    by apply IH.
Qed.

Lemma metadata_unreadable_subject_is_fatal_witness :
  exists e,
    scan_metadata Samples.pipeline_world
      [Samples.dir "postprocessed_rec1"; Samples.file "rec_subject.json"]
      ("undefined", "undefined") = Raise e.
Proof.
  apply (metadata_unreadable_subject_is_fatal Samples.pipeline_world
           [Samples.dir "postprocessed_rec1"; Samples.file "rec_subject.json"]
           (Samples.file "rec_subject.json") ("undefined", "undefined")).
  - right. left. reflexivity.
  - reflexivity.
  - reflexivity.
Defined.

(** ** Job configuration (lines 80-84) *)

Lemma global_job_kwargs_app (e1 e2 : list event) :
  global_job_kwargs (e1 ++ e2) = (global_job_kwargs e1 ++ global_job_kwargs e2)%list.
Proof. apply omap_app. Qed.

Lemma no_kwargs_bind {A B} (m : prog A) (f : A -> prog B) :
  global_job_kwargs (fst m) = [] ->
  (forall a, global_job_kwargs (fst (f a)) = []) ->
  global_job_kwargs (fst (m ≫= f)) = [].
Proof.
  intros Hm Hf. rewrite bind_events, global_job_kwargs_app, Hm.
  destruct (snd m) as [a | e]; [apply Hf | done].
Qed.

Ltac no_kwargs_step :=
  match goal with
  | |- global_job_kwargs (fst (lift _)) = [] => reflexivity
  | |- global_job_kwargs (fst (emit (Info _))) = [] => reflexivity
  | |- global_job_kwargs (fst (emit (NpSave _ _))) = [] => reflexivity
  | |- global_job_kwargs (fst (emit (WriteJson _ _))) = [] => reflexivity
  | |- global_job_kwargs (fst (mret _)) = [] => reflexivity
  | |- global_job_kwargs (fst (_ ≫= _)) = [] => apply no_kwargs_bind; [| intros]
  | |- global_job_kwargs (fst (match ?x with _ => _ end)) = [] => destruct x
  end.

Lemma curation_loop_no_kwargs (w : World) (ctx : Context) (folders : list DirEntry) :
  forall st, global_job_kwargs (fst (curation_loop w ctx st folders)) = [].
Proof.
  induction folders as [| p rest IH]; intros st; [reflexivity |].
  cbn [curation_loop]. apply no_kwargs_bind; [| intros; apply IH].
  unfold curate_recording. repeat no_kwargs_step.
Qed.

Lemma load_processing_params_no_kwargs (w : World) (src : params_source) :
  global_job_kwargs (fst (load_processing_params w src)) = [].
Proof. unfold load_processing_params. repeat no_kwargs_step. Qed.

(** The job count and the job arguments of the parameters document, as the
    script has them when it reaches line 84. *)
Lemma prepare_job_kwargs (w : World) (cl : CommandLine) :
  global_job_kwargs (fst (prepare w cl)) =
  match parse_args cl with
  | Ok args =>
      match resolve_n_jobs args (getenv_CO_CPUS w) with
      | Ok N =>
          match snd (load_processing_params w (resolve_params_source args)) with
          | Ok pp =>
              match job_kwargs pp with
              | Some kw0 => [<["n_jobs" := JNum N]> kw0]
              | None => []
              end
          | Raise _ => []
          end
      | Raise _ => []
      end
  | Raise _ => []
  end.
Proof.
  unfold prepare.
  rewrite bind_events. cbn [lift fst snd app].
  destruct (parse_args cl) as [args | e]; [| reflexivity].
  rewrite bind_events. cbn [lift fst snd app].
  destruct (resolve_n_jobs args (getenv_CO_CPUS w)) as [N | e]; [| reflexivity].
  rewrite bind_events, global_job_kwargs_app, load_processing_params_no_kwargs.
  cbn [app].
  destruct (snd (load_processing_params w (resolve_params_source args))) as [pp | e];
    [| reflexivity].
  rewrite bind_events. cbn [lift fst snd app].
  destruct (job_kwargs pp) as [kw0 |]; cbn [of_option]; [| reflexivity].
  rewrite bind_events, global_job_kwargs_app. cbn [emit fst snd].
  cbn [global_job_kwargs omap list_omap app]. f_equal.
  repeat no_kwargs_step.
Qed.

Lemma main_job_kwargs (w : World) (cl : CommandLine) :
  global_job_kwargs (fst (main w cl)) = global_job_kwargs (fst (prepare w cl)).
Proof.
  rewrite main_events, global_job_kwargs_app.
  destruct (snd (prepare w cl)) as [[[ctx st] folders] | e]; [| by rewrite app_nil_r].
  rewrite global_job_kwargs_app, curation_loop_no_kwargs.
  destruct (snd (curation_loop w ctx st folders)); cbn; by rewrite app_nil_r.
Qed.

(** X6.  [si.set_global_job_kwargs] is called at most once in a run, with
    the [job_kwargs] object of the parameters document in which the entry
    ["n_jobs"] has been overwritten with the resolved job count: a job count
    written in the document is never used, and every other entry is
    forwarded as it is. *)
Theorem job_count_overlays_job_kwargs (w : World) (cl : CommandLine)
    (kw : gmap string job_value) :
  In kw (global_job_kwargs (fst (main w cl))) ->
  global_job_kwargs (fst (main w cl)) = [kw]
  /\ exists args N pp kw0,
       parse_args cl = Ok args
       /\ resolve_n_jobs args (getenv_CO_CPUS w) = Ok N
       /\ snd (load_processing_params w (resolve_params_source args)) = Ok pp
       /\ job_kwargs pp = Some kw0
       /\ kw !! "n_jobs" = Some (JNum N)
       /\ forall key, key <> "n_jobs" -> kw !! key = kw0 !! key.
Proof.
  rewrite main_job_kwargs, prepare_job_kwargs. intros Hin.
  destruct (parse_args cl) as [args | e] eqn:Hargs; [| contradiction].
  destruct (resolve_n_jobs args (getenv_CO_CPUS w)) as [N | e] eqn:HN; [| contradiction].
  destruct (snd (load_processing_params w (resolve_params_source args))) as [pp | e] eqn:Hpp;
    [| contradiction].
  destruct (job_kwargs pp) as [kw0 |] eqn:Hkw; [| contradiction].
  destruct Hin as [<- | []]. split; [reflexivity |].
  exists args, N, pp, kw0. repeat split; try done.
  - apply lookup_insert_eq.
  - intros key Hne. by apply lookup_insert_ne.
Qed.

Lemma job_count_overlays_job_kwargs_witness :
  global_job_kwargs (fst (main Samples.pipeline_world (Samples.no_options ["4"]))) =
    [<["n_jobs" := JNum (NInt 4)]> ∅]
  /\ exists args N pp kw0,
       parse_args (Samples.no_options ["4"]) = Ok args
       /\ resolve_n_jobs args (getenv_CO_CPUS Samples.pipeline_world) = Ok N
       /\ snd (load_processing_params Samples.pipeline_world (resolve_params_source args))
          = Ok pp
       /\ job_kwargs pp = Some kw0
       /\ (<["n_jobs" := JNum (NInt 4)]> ∅ : gmap string job_value) !! "n_jobs"
          = Some (JNum N)
       /\ forall key, key <> "n_jobs" ->
                      (<["n_jobs" := JNum (NInt 4)]> ∅ : gmap string job_value) !! key
                      = kw0 !! key.
Proof.
  apply (job_count_overlays_job_kwargs Samples.pipeline_world (Samples.no_options ["4"])
           (<["n_jobs" := JNum (NInt 4)]> ∅)).
  vm_compute. left. reflexivity.
Defined.

(** ** Fatal errors before the loop (lines 54-154) *)

(** X7.  When anything before the loop raises (the parser, the job count,
    the parameters document, a missing key, the listing, the metadata, the
    assertion), the run ends with that exception and has written no mask
    and no provenance document. *)
Theorem fatal_preparation_writes_nothing (w : World) (cl : CommandLine) (e : exn) :
  snd (prepare w cl) = Raise e ->
  snd (main w cl) = Raise e
  /\ saved_masks (fst (main w cl)) = []
  /\ written_json (fst (main w cl)) = []
  /\ fst (main w cl) = fst (prepare w cl).
Proof.
  intros Hprep. pose proof (main_files w cl) as Hfiles. pose proof (main_events w cl) as Hev.
  rewrite Hprep in Hfiles, Hev. destruct Hfiles as [Hs Hj].
  repeat split; try done.
  - unfold main. rewrite bind_result, Hprep. reflexivity.
  - by rewrite app_nil_r in Hev.
Qed.

Lemma fatal_preparation_writes_nothing_witness :
  snd (main Samples.pipeline_world MoreSamples.missing_params_file) = Raise OSError
  /\ saved_masks (fst (main Samples.pipeline_world MoreSamples.missing_params_file)) = []
  /\ written_json (fst (main Samples.pipeline_world MoreSamples.missing_params_file)) = []
  /\ fst (main Samples.pipeline_world MoreSamples.missing_params_file) =
     fst (prepare Samples.pipeline_world MoreSamples.missing_params_file).
Proof.
  apply (fatal_preparation_writes_nothing Samples.pipeline_world
           MoreSamples.missing_params_file OSError).
  reflexivity.
Defined.

(** ** Thresholds (lines 119-123, 136-141) *)

(** Where the values the loop starts with come from: the namespace, the
    parameters document that was loaded, its [curation] object, the listing
    of [data_folder] and the mode. *)
Lemma prepare_origin (w : World) (cl : CommandLine) (ctx : Context) (st : LoopState)
    (folders : list DirEntry) :
  snd (prepare w cl) = Ok (ctx, st, folders) ->
  exists args pp params listing m isi pr amp,
    parse_args cl = Ok args
    /\ snd (load_processing_params w (resolve_params_source args)) = Ok pp
    /\ curation pp = Some params
    /\ iterdir w [] = Some listing
    /\ select_mode listing = Ok m
    /\ params !! "isi_violations_ratio_threshold" = Some isi
    /\ params !! "presence_ratio_threshold" = Some pr
    /\ params !! "amplitude_cutoff_threshold" = Some amp
    /\ ctx = context_of m listing isi pr amp
    /\ st = {| curation_notes := [NoteQuery (curation_query ctx)];
               curation_params := {| thresholds := params_of_mode m params;
                                     recording_name := None |} |}.
Proof.
  unfold prepare. intros H. repeat bind_step H.
  cbn in H. injection H as <- <- <-.
  unfold subscript in *.
  repeat match goal with
         | Hx : of_option _ _ = Ok _ |- _ => apply of_option_ok in Hx
         end.
  do 8 eexists. repeat split; eauto.
Qed.

(** Without [presence_ratio_threshold] in the [curation] object of the
    loaded document the run does not reach the loop, whatever the mode. *)
Lemma prepare_needs_presence_threshold (w : World) (cl : CommandLine) (args : Namespace)
    (pp : ProcessingParams) (params : gmap string Q) :
  parse_args cl = Ok args ->
  snd (load_processing_params w (resolve_params_source args)) = Ok pp ->
  curation pp = Some params ->
  params !! "presence_ratio_threshold" = None ->
  forall r, snd (prepare w cl) <> Ok r.
Proof.
  intros Hargs Hpp Hcur Hnone [[ctx st] folders] Hprep.
  destruct (prepare_origin _ _ _ _ _ Hprep)
    as (args' & pp' & params' & listing & m & isi & pr & amp
        & Hargs' & Hpp' & Hcur' & _ & _ & _ & Hpr & _).
  assert (args' = args) as -> by congruence.
  assert (pp' = pp) as -> by congruence.
  assert (params' = params) as -> by congruence.
  congruence.
Qed.

(** X8.  A run reaches the loop only if the [curation] object of the
    parameters document it loaded holds all three thresholds,
    [presence_ratio_threshold] included even in test mode, where the query
    does not use it: without that key the run stops before the loop.  The
    query is built from the values of that object; the parameters kept for
    provenance are that object, from which test mode, and only test mode,
    has deleted [presence_ratio_threshold]; no recording name is set yet. *)
Theorem thresholds_reaching_the_loop (w : World) (cl : CommandLine) :
  (forall ctx st folders,
      snd (prepare w cl) = Ok (ctx, st, folders) ->
      exists args pp params listing m isi pr amp,
        parse_args cl = Ok args
        /\ snd (load_processing_params w (resolve_params_source args)) = Ok pp
        /\ curation pp = Some params
        /\ iterdir w [] = Some listing
        /\ select_mode listing = Ok m
        /\ params !! "isi_violations_ratio_threshold" = Some isi
        /\ params !! "presence_ratio_threshold" = Some pr
        /\ params !! "amplitude_cutoff_threshold" = Some amp
        /\ curation_query ctx = query_of_mode m isi pr amp
        /\ curation_notes st = [NoteQuery (query_of_mode m isi pr amp)]
        /\ recording_name (curation_params st) = None
        /\ thresholds (curation_params st) =
             match m with
             | TestMode => delete "presence_ratio_threshold" params
             | _ => params
             end
        /\ thresholds (curation_params st) !! "isi_violations_ratio_threshold" = Some isi
        /\ thresholds (curation_params st) !! "amplitude_cutoff_threshold" = Some amp
        /\ thresholds (curation_params st) !! "presence_ratio_threshold" =
             match m with
             | TestMode => None
             | _ => Some pr
             end)
  /\ (forall args pp params,
        parse_args cl = Ok args ->
        snd (load_processing_params w (resolve_params_source args)) = Ok pp ->
        curation pp = Some params ->
        params !! "presence_ratio_threshold" = None ->
        exists e, snd (prepare w cl) = Raise e /\ snd (main w cl) = Raise e).
Proof.
  split.
  - intros ctx st folders Hprep.
    destruct (prepare_origin _ _ _ _ _ Hprep)
      as (args & pp & params & listing & m & isi & pr & amp
          & Hargs & Hpp & Hcur & Hl & Hm & Hisi & Hpr & Hamp & -> & ->).
    exists args, pp, params, listing, m, isi, pr, amp. cbn.
    repeat split; try done; destruct m; cbn; try done;
      first [by rewrite lookup_delete_ne | by rewrite lookup_delete_eq].
  - intros args pp params Hargs Hpp Hcur Hnone.
    pose proof (prepare_needs_presence_threshold _ _ _ _ _ Hargs Hpp Hcur Hnone) as Hno.
    destruct (snd (prepare w cl)) as [r | e] eqn:Hprep; [by destruct (Hno r) |].
    exists e. split; [reflexivity |].
    unfold main. rewrite bind_result, Hprep. reflexivity.
Qed.

Lemma thresholds_reaching_the_loop_witness :
  (exists args pp params listing m isi pr amp,
      parse_args (Samples.no_options []) = Ok args
      /\ snd (load_processing_params Samples.test_world (resolve_params_source args)) = Ok pp
      /\ curation pp = Some params
      /\ iterdir Samples.test_world [] = Some listing
      /\ select_mode listing = Ok m
      /\ params !! "isi_violations_ratio_threshold" = Some isi
      /\ params !! "presence_ratio_threshold" = Some pr
      /\ params !! "amplitude_cutoff_threshold" = Some amp
      /\ curation_query MoreSamples.test_ctx = query_of_mode m isi pr amp
      /\ curation_notes MoreSamples.test_st = [NoteQuery (query_of_mode m isi pr amp)]
      /\ recording_name (curation_params MoreSamples.test_st) = None
      /\ thresholds (curation_params MoreSamples.test_st) =
           match m with
           | TestMode => delete "presence_ratio_threshold" params
           | _ => params
           end
      /\ thresholds (curation_params MoreSamples.test_st) !! "isi_violations_ratio_threshold"
         = Some isi
      /\ thresholds (curation_params MoreSamples.test_st) !! "amplitude_cutoff_threshold"
         = Some amp
      /\ thresholds (curation_params MoreSamples.test_st) !! "presence_ratio_threshold" =
           match m with
           | TestMode => None
           | _ => Some pr
           end)
  /\ (exists e,
        snd (prepare MoreSamples.no_presence_world (Samples.no_options [])) = Raise e
        /\ snd (main MoreSamples.no_presence_world (Samples.no_options [])) = Raise e).
Proof.
  split.
  - apply (proj1 (thresholds_reaching_the_loop Samples.test_world (Samples.no_options []))
                 MoreSamples.test_ctx MoreSamples.test_st [Samples.dir "postprocessed_rec1"]).
    vm_compute. reflexivity.
  - apply (proj2 (thresholds_reaching_the_loop MoreSamples.no_presence_world
                    (Samples.no_options []))
                 {| static_n_jobs := "-1"; n_jobs := "-1"; static_params_file := None;
                    params_file := None; params_str := None |}
                 MoreSamples.no_presence_doc MoreSamples.two_thresholds);
      reflexivity.
Defined.

(** ** What the loop carries from one recording to the next (lines 155-210) *)

Lemma passing_note_loaded (w : World) (ctx : Context) (p : DirEntry) analyzer qm :
  load_sorting_analyzer_or_waveforms w (folder_of ctx p) = Some analyzer ->
  quality_metrics analyzer = Some qm ->
  passing_note w ctx p =
  Some (NotePassing (np_sum (mask_of ctx analyzer qm)) (n_units_of analyzer)).
Proof. intros Hload Hqm. unfold passing_note. by rewrite Hload, Hqm. Qed.

Lemma passing_note_failed (w : World) (ctx : Context) (p : DirEntry) :
  load_sorting_analyzer_or_waveforms w (folder_of ctx p) = None ->
  passing_note w ctx p = None.
Proof. intros Hload. unfold passing_note. by rewrite Hload. Qed.

(** The loop variables and the saved files after a batch that ran to its
    end. *)
Lemma loop_final_state (w : World) (ctx : Context) (folders : list DirEntry) :
  forall st st',
    snd (curation_loop w ctx st folders) = Ok st' ->
    thresholds (curation_params st') = thresholds (curation_params st)
    /\ curation_notes st' = (curation_notes st ++ passing_notes w ctx folders)%list
    /\ List.map fst (saved_masks (fst (curation_loop w ctx st folders))) =
       List.map (fun p => qc_file (recording_of ctx p)) folders.
Proof.
  induction folders as [| p rest IH]; intros st st' Hrun.
  { cbn in Hrun. injection Hrun as <-. cbn. by rewrite app_nil_r. }
  rewrite curation_loop_cons_result in Hrun. rewrite curation_loop_cons_events.
  rewrite saved_masks_app, map_app. unfold passing_notes. cbn [omap list_omap].
  fold (passing_notes w ctx rest).
  destruct (load_sorting_analyzer_or_waveforms w (folder_of ctx p)) as [a |] eqn:Hload.
  - destruct (quality_metrics a) as [qm |] eqn:Hqm.
    + rewrite (curate_recording_loaded _ _ _ _ _ _ Hload Hqm) in Hrun |- *.
      cbn [fst snd] in Hrun |- *. rewrite (passing_note_loaded _ _ _ _ _ Hload Hqm).
      destruct (IH _ _ Hrun) as (Hthr & Hnotes & Hfiles).
      rewrite Hthr, Hnotes, Hfiles. cbn [state_after curation_params curation_notes thresholds].
      rewrite <- app_assoc. repeat split; try done.
      by destruct (pipeline_mode ctx).
    + by rewrite (curate_recording_no_metrics _ _ _ _ _ Hload Hqm) in Hrun.
  - rewrite (curate_recording_failed _ _ _ _ Hload) in Hrun |- *.
    cbn [fst snd] in Hrun |- *. rewrite (passing_note_failed _ _ _ Hload).
    destruct (IH _ _ Hrun) as (Hthr & Hnotes & Hfiles).
    rewrite Hthr, Hnotes, Hfiles. done.
Qed.

(** Where in the batch a provenance document was written, and from which
    loop variables. *)
Lemma loop_provenance_position (w : World) (ctx : Context) (folders : list DirEntry) :
  forall st file doc,
    In (file, doc) (written_json (fst (curation_loop w ctx st folders))) ->
    exists pre p post analyzer qm st1,
      folders = (pre ++ p :: post)%list
      /\ snd (curation_loop w ctx st pre) = Ok st1
      /\ load_sorting_analyzer_or_waveforms w (folder_of ctx p) = Some analyzer
      /\ quality_metrics analyzer = Some qm
      /\ file = process_json_file (recording_of ctx p)
      /\ doc = document_of ctx st1 (recording_of ctx p) analyzer qm.
Proof.
  induction folders as [| p0 rest IH]; intros st file doc Hin; [contradiction |].
  rewrite curation_loop_cons_events, written_json_app in Hin.
  destruct (load_sorting_analyzer_or_waveforms w (folder_of ctx p0)) as [a |] eqn:Hload.
  - destruct (quality_metrics a) as [qm |] eqn:Hqm.
    + pose proof (curate_recording_loaded w ctx st p0 a qm Hload Hqm) as Hstep.
      rewrite Hstep in Hin. cbn [fst snd] in Hin. apply in_app_or in Hin as [Hin | Hin].
      * destruct (pipeline_mode ctx); cbn in Hin; [| contradiction].
        destruct Hin as [Heq | []]. injection Heq as <- <-.
        exists [], p0, rest, a, qm, st. repeat split; done.
      * destruct (IH _ _ _ Hin) as (pre & p & post & a' & qm' & st1 & -> & Hpre & H).
        exists (p0 :: pre), p, post, a', qm', st1. split; [done |]. split; [| exact H].
        rewrite curation_loop_cons_result, Hstep. exact Hpre.
    + rewrite (curate_recording_no_metrics _ _ _ _ _ Hload Hqm) in Hin.
      cbn in Hin. contradiction.
  - pose proof (curate_recording_failed w ctx st p0 Hload) as Hstep.
    rewrite Hstep in Hin. cbn [fst snd] in Hin.
    apply in_app_or in Hin as [Hin | Hin]; [contradiction |].
    destruct (IH _ _ _ Hin) as (pre & p & post & a' & qm' & st1 & -> & Hpre & H).
    exists (p0 :: pre), p, post, a', qm', st1. split; [done |]. split; [| exact H].
    rewrite curation_loop_cons_result, Hstep. exact Hpre.
Qed.

(** X9.  Every provenance document of a batch carries the thresholds the
    loop started with, unchanged by the recordings before it, together with
    the name of its own recording, and the fixed name, version, locations
    and code reference of the script. *)
Theorem provenance_parameters (w : World) (ctx : Context) (st : LoopState)
    (folders : list DirEntry) (file : string) (doc : DataProcess) :
  In (file, doc) (written_json (fst (curation_loop w ctx st folders))) ->
  exists p,
    In p folders
    /\ file = process_json_file (recording_of ctx p)
    /\ recording_name (parameters doc) = Some (recording_of ctx p)
    /\ thresholds (parameters doc) = thresholds (curation_params st)
    /\ dp_name doc = "Ephys curation"
    /\ software_version doc = "1.0"
    /\ input_location doc = "../data"
    /\ output_location doc = "../results"
    /\ code_url doc = "https://github.com/AllenNeuralDynamics/aind-ephys-curation".
Proof.
  intros Hin.
  destruct (loop_provenance_position _ _ _ _ _ _ Hin)
    as (pre & p & post & a & qm & st1 & -> & Hpre & _ & _ & -> & ->).
  destruct (loop_final_state _ _ _ _ _ Hpre) as (Hthr & _ & _).
  exists p. repeat split; try done.
  apply in_or_app. right. by left.
Qed.

(** X10.  The notes are never reset within a run: the provenance document
    of a recording holds the notes the loop started with, then one count for
    every recording curated before it in the batch, then its own count;
    recordings that did not load add nothing. *)
Theorem provenance_notes_accumulate (w : World) (ctx : Context) (st : LoopState)
    (folders : list DirEntry) (file : string) (doc : DataProcess) :
  In (file, doc) (written_json (fst (curation_loop w ctx st folders))) ->
  exists pre p post,
    folders = (pre ++ p :: post)%list
    /\ file = process_json_file (recording_of ctx p)
    /\ notes doc = (curation_notes st ++ passing_notes w ctx (pre ++ [p]))%list
    /\ passing_notes w ctx (pre ++ [p]) =
         (passing_notes w ctx pre ++
          [NotePassing (passing_qc (outputs doc)) (total_units (outputs doc))])%list.
Proof.
  intros Hin.
  destruct (loop_provenance_position _ _ _ _ _ _ Hin)
    as (pre & p & post & a & qm & st1 & -> & Hpre & Hload & Hqm & -> & ->).
  destruct (loop_final_state _ _ _ _ _ Hpre) as (_ & Hnotes & _).
  exists pre, p, post.
  assert (Hlast : passing_notes w ctx (pre ++ [p]) =
                  (passing_notes w ctx pre ++
                   [NotePassing (np_sum (mask_of ctx a qm)) (n_units_of a)])%list).
  { unfold passing_notes. rewrite omap_app. cbn [omap list_omap].
    by rewrite (passing_note_loaded _ _ _ _ _ Hload Hqm). }
  repeat split; try done.
  cbn [document_of notes state_after curation_notes]. rewrite Hnotes, Hlast.
  by rewrite app_assoc.
Qed.

Lemma provenance_parameters_witness :
  exists p,
    In p MoreSamples.two_folders
    /\ "data_process_curation_rec1.json" = process_json_file (recording_of Samples.pipeline_ctx p)
    /\ recording_name (parameters MoreSamples.rec1_doc) =
       Some (recording_of Samples.pipeline_ctx p)
    /\ thresholds (parameters MoreSamples.rec1_doc) = thresholds (curation_params Samples.st0)
    /\ dp_name MoreSamples.rec1_doc = "Ephys curation"
    /\ software_version MoreSamples.rec1_doc = "1.0"
    /\ input_location MoreSamples.rec1_doc = "../data"
    /\ output_location MoreSamples.rec1_doc = "../results"
    /\ code_url MoreSamples.rec1_doc
       = "https://github.com/AllenNeuralDynamics/aind-ephys-curation".
Proof.
  apply (provenance_parameters Samples.pipeline_world Samples.pipeline_ctx Samples.st0
           MoreSamples.two_folders "data_process_curation_rec1.json" MoreSamples.rec1_doc).
  left. reflexivity.
Defined.

Lemma provenance_notes_accumulate_witness :
  exists pre p post,
    MoreSamples.two_folders = (pre ++ p :: post)%list
    /\ "data_process_curation_rec1.json" = process_json_file (recording_of Samples.pipeline_ctx p)
    /\ notes MoreSamples.rec1_doc =
       (curation_notes Samples.st0 ++
        passing_notes Samples.pipeline_world Samples.pipeline_ctx (pre ++ [p]))%list
    /\ passing_notes Samples.pipeline_world Samples.pipeline_ctx (pre ++ [p]) =
         (passing_notes Samples.pipeline_world Samples.pipeline_ctx pre ++
          [NotePassing (passing_qc (outputs MoreSamples.rec1_doc))
                       (total_units (outputs MoreSamples.rec1_doc))])%list.
Proof.
  apply (provenance_notes_accumulate Samples.pipeline_world Samples.pipeline_ctx Samples.st0
           MoreSamples.two_folders "data_process_curation_rec1.json" MoreSamples.rec1_doc).
  left. reflexivity.
Defined.

Lemma main_result (w : World) (cl : CommandLine) :
  snd (main w cl) =
  match snd (prepare w cl) with
  | Ok (ctx, st, folders) =>
      match snd (curation_loop w ctx st folders) with
      | Ok _ => Ok tt
      | Raise e => Raise e
      end
  | Raise e => Raise e
  end.
Proof.
  unfold main. rewrite bind_result.
  destruct (snd (prepare w cl)) as [[[ctx st] folders] | e]; [| reflexivity].
  rewrite bind_result. by destruct (snd (curation_loop w ctx st folders)).
Qed.

(** X11.  A run that ends normally has saved exactly one mask per
    discovered folder, in the order of the listing, each under the [qc_]
    name of its recording; the discovered folders are those of the base
    folder that pass the filter of the mode. *)
Theorem one_mask_per_discovered_folder (w : World) (cl : CommandLine) :
  snd (main w cl) = Ok tt ->
  exists ctx st folders entries,
    snd (prepare w cl) = Ok (ctx, st, folders)
    /\ iterdir w (base_folder ctx) = Some entries
    /\ folders = postprocessed_folders (pipeline_mode ctx) entries
    /\ List.map fst (saved_masks (fst (main w cl))) =
       List.map (fun p => qc_file (recording_of ctx p)) folders
    /\ List.length (saved_masks (fst (main w cl))) = List.length folders.
Proof.
  intros Hmain. rewrite main_result in Hmain. pose proof (main_files w cl) as Hfiles.
  destruct (snd (prepare w cl)) as [[[ctx st] folders] | e] eqn:Hprep; [| discriminate].
  destruct (snd (curation_loop w ctx st folders)) as [st' | e] eqn:Hloop; [| discriminate].
  destruct Hfiles as [Hs _].
  destruct (prepare_context _ _ _ _ _ Hprep)
    as (listing & m & params & isi & pr & amp & entries & _ & _ & _ & _ & _ & _ & He & Hf & _).
  destruct (loop_final_state _ _ _ _ _ Hloop) as (_ & _ & Hnames).
  exists ctx, st, folders, entries. rewrite Hs. repeat split; try done.
  rewrite <- (length_map fst), Hnames. apply length_map.
Qed.

Lemma one_mask_per_discovered_folder_witness :
  exists ctx st folders entries,
    snd (prepare MoreSamples.failed_second_world (Samples.no_options [])) =
      Ok (ctx, st, folders)
    /\ iterdir MoreSamples.failed_second_world (base_folder ctx) = Some entries
    /\ folders = postprocessed_folders (pipeline_mode ctx) entries
    /\ List.map fst (saved_masks (fst (main MoreSamples.failed_second_world
                                         (Samples.no_options [])))) =
       List.map (fun p => qc_file (recording_of ctx p)) folders
    /\ List.length (saved_masks (fst (main MoreSamples.failed_second_world
                                        (Samples.no_options [])))) = List.length folders.
Proof.
  apply (one_mask_per_discovered_folder MoreSamples.failed_second_world
           (Samples.no_options [])).
  vm_compute. reflexivity.
Defined.

(** X12.  An analyzer that loads without its quality-metrics extension is
    not a soft failure: the batch stops there with an [AttributeError],
    after the notice for that recording, and neither that recording nor any
    later one gets a mask or a provenance document. *)
Theorem missing_metrics_abort_the_batch (w : World) (ctx : Context) (st st1 : LoopState)
    (pre post : list DirEntry) (p : DirEntry) (analyzer : SortingAnalyzer) :
  snd (curation_loop w ctx st pre) = Ok st1 ->
  load_sorting_analyzer_or_waveforms w (folder_of ctx p) = Some analyzer ->
  quality_metrics analyzer = None ->
  curation_loop w ctx st (pre ++ p :: post) =
    ((fst (curation_loop w ctx st pre) ++ [Info (LogCurating (recording_of ctx p))])%list,
     Raise AttributeError)
  /\ saved_masks (fst (curation_loop w ctx st (pre ++ p :: post))) =
     saved_masks (fst (curation_loop w ctx st pre))
  /\ written_json (fst (curation_loop w ctx st (pre ++ p :: post))) =
     written_json (fst (curation_loop w ctx st pre)).
Proof.
  intros Hpre Hload Hqm.
  assert (Hrun : curation_loop w ctx st (pre ++ p :: post) =
                 ((fst (curation_loop w ctx st pre)
                   ++ [Info (LogCurating (recording_of ctx p))])%list,
                  Raise AttributeError)).
  { rewrite curation_loop_app.
    destruct (curation_loop w ctx st pre) as [evs r]. cbn [snd] in Hpre. subst r.
    unfold mbind, prog_bind. cbn [fst curation_loop].
    unfold mbind, prog_bind. rewrite (curate_recording_no_metrics _ _ _ _ _ Hload Hqm).
    reflexivity. }
  rewrite Hrun. cbn [fst]. rewrite saved_masks_app, written_json_app. cbn.
  by rewrite !app_nil_r.
Qed.

Lemma missing_metrics_abort_the_batch_witness :
  saved_masks
    (fst (curation_loop MoreSamples.broken_second_world Samples.pipeline_ctx Samples.st0
            ([Samples.dir "postprocessed_rec1"] ++
             Samples.dir "postprocessed_rec2" :: [Samples.dir "postprocessed_rec3"]))) =
  saved_masks
    (fst (curation_loop MoreSamples.broken_second_world Samples.pipeline_ctx Samples.st0
            [Samples.dir "postprocessed_rec1"])).
Proof.
  apply (missing_metrics_abort_the_batch MoreSamples.broken_second_world
           Samples.pipeline_ctx Samples.st0
           (state_after Samples.pipeline_ctx Samples.st0 "rec1" Samples.two_units
              Samples.two_units_table)
           [Samples.dir "postprocessed_rec1"] [Samples.dir "postprocessed_rec3"]
           (Samples.dir "postprocessed_rec2") MoreSamples.no_metrics);
    reflexivity.
Defined.

Lemma np_sum_bounds (mask : list bool) : 0 <= np_sum mask <= Z.of_nat (List.length mask).
Proof.
  unfold np_sum. split; [lia |]. apply inj_le. apply filter_length_le.
Qed.

(** X13.  In every provenance document the three counts are those of a
    partition: neither [passing_qc] nor [failing_qc] is negative, and
    neither exceeds [total_units]. *)
Theorem provenance_counts_bounded (w : World) (ctx : Context) (st : LoopState)
    (folders : list DirEntry) (file : string) (doc : DataProcess) :
  In (file, doc) (written_json (fst (curation_loop w ctx st folders))) ->
  0 <= passing_qc (outputs doc) <= total_units (outputs doc)
  /\ 0 <= failing_qc (outputs doc) <= total_units (outputs doc).
Proof.
  intros Hin.
  destruct (loop_provenance_origin _ _ _ _ _ _ Hin)
    as (p & a & qm & st1 & _ & _ & _ & _ & _ & -> & _).
  pose proof (np_sum_bounds (mask_of ctx a qm)) as Hb.
  assert (Hlen : List.length (mask_of ctx a qm) = List.length (unit_ids a))
    by apply default_qc_length.
  rewrite Hlen in Hb. cbn. unfold n_units_of. lia.
Qed.

Lemma provenance_counts_bounded_witness :
  0 <= passing_qc (outputs MoreSamples.rec1_doc) <= total_units (outputs MoreSamples.rec1_doc)
  /\ 0 <= failing_qc (outputs MoreSamples.rec1_doc)
       <= total_units (outputs MoreSamples.rec1_doc).
Proof.
  apply (provenance_counts_bounded Samples.pipeline_world Samples.pipeline_ctx Samples.st0
           MoreSamples.two_folders "data_process_curation_rec1.json" MoreSamples.rec1_doc).
  left. reflexivity.
Defined.

(** ** The query and the mask (lines 119-141, 176-183) *)

Lemma np_sum_monotone {A} (f g : A -> bool) (l : list A) :
  (forall x, f x = true -> g x = true) ->
  np_sum (List.map f l) <= np_sum (List.map g l).
Proof.
  intros Hfg. unfold np_sum. apply inj_le.
  induction l as [| x l IH]; [done |].
  cbn [List.map List.filter]. destruct (f x) eqn:Hf.
  - rewrite (Hfg _ Hf). cbn. lia.
  - destruct (g x); cbn; lia.
Qed.

Lemma default_qc_as_map (curated : list Z) (analyzer : SortingAnalyzer) :
  default_qc curated analyzer = List.map (fun unit => np_in unit curated) (unit_ids analyzer).
Proof.
  unfold default_qc. apply map_ext. intros unit. by destruct (np_in unit curated).
Qed.

Lemma eval_query_test_weaker (m : mode) (isi pr amp : Q) (row : MetricsRow) :
  eval_query (query_of_mode m isi pr amp) row = true ->
  eval_query (query_of_mode TestMode isi pr amp) row = true.
Proof.
  rewrite !eval_query_of_mode. intros (Hisi & _ & Hamp). repeat split; done.
Qed.

Lemma np_in_curated_monotone (qm : DataFrame) (q q' : query) (unit : Z) :
  (forall row, eval_query q row = true -> eval_query q' row = true) ->
  np_in unit (index_values (df_query qm q)) = true ->
  np_in unit (index_values (df_query qm q')) = true.
Proof.
  intros Hq. rewrite !np_in_spec, !curated_unit_ids_spec.
  intros (row & Hin & Hrow). exists row. auto.
Qed.

(** X14.  Test mode only drops a clause: with the same thresholds, every
    unit flagged true in single-asset or pipeline mode is flagged true in
    test mode, so test mode never reports fewer passing units. *)
Theorem test_mode_mask_is_weaker (m : mode) (listing listing' : list DirEntry)
    (isi pr amp : Q) (analyzer : SortingAnalyzer) (qm : DataFrame) :
  (forall i,
      nth_error (mask_of (context_of m listing isi pr amp) analyzer qm) i = Some true ->
      nth_error (mask_of (context_of TestMode listing' isi pr amp) analyzer qm) i = Some true)
  /\ np_sum (mask_of (context_of m listing isi pr amp) analyzer qm)
     <= np_sum (mask_of (context_of TestMode listing' isi pr amp) analyzer qm).
Proof.
  unfold mask_of. cbn [context_of curation_query]. rewrite !default_qc_as_map. split.
  - intros i. rewrite !nth_error_map.
    destruct (nth_error (unit_ids analyzer) i) as [unit |]; cbn; [| done].
    intros [= Hin]. f_equal.
    apply (np_in_curated_monotone _ _ _ _ (eval_query_test_weaker m isi pr amp) Hin).
  - apply np_sum_monotone. intros unit.
    apply np_in_curated_monotone, eval_query_test_weaker.
Qed.

(** X15.  A unit the analyzer reports but the metrics table has no row for
    is flagged false, in every mode; with an empty table no unit passes. *)
Theorem unit_without_row_fails (ctx : Context) (analyzer : SortingAnalyzer)
    (qm : DataFrame) (i : nat) (unit : Z) :
  nth_error (unit_ids analyzer) i = Some unit ->
  (forall row, ~ In (unit, row) qm) ->
  nth_error (mask_of ctx analyzer qm) i = Some false
  /\ (qm = [] -> np_sum (mask_of ctx analyzer qm) = 0).
Proof.
  intros Hu Hno. split.
  - unfold mask_of. rewrite (default_qc_nth _ _ _ _ Hu). f_equal.
    destruct (np_in unit _) eqn:Hin; [| done].
    apply np_in_spec, curated_unit_ids_spec in Hin as (row & Hin & _).
    by destruct (Hno row).
  - intros ->. unfold mask_of, np_sum. rewrite default_qc_as_map. cbn.
    clear. induction (unit_ids analyzer) as [| u l IH]; [done |]. cbn. exact IH.
Qed.

Lemma unit_without_row_fails_witness :
  nth_error (mask_of Samples.pipeline_ctx
               {| unit_ids := [0; 1; 7]; quality_metrics := Some Samples.two_units_table |}
               Samples.two_units_table) 2 = Some false
  /\ (Samples.two_units_table = [] ->
      np_sum (mask_of Samples.pipeline_ctx
                {| unit_ids := [0; 1; 7]; quality_metrics := Some Samples.two_units_table |}
                Samples.two_units_table) = 0).
Proof.
  apply (unit_without_row_fails Samples.pipeline_ctx
           {| unit_ids := [0; 1; 7]; quality_metrics := Some Samples.two_units_table |}
           Samples.two_units_table 2%nat 7).
  - reflexivity.
  - intros row [H | [H | []]]; discriminate H.
Defined.

Lemma flt_monotone (x : float64) (t t' : Q) :
  (t <= t')%Q -> flt x t = true -> flt x t' = true.
Proof.
  destruct x as [| | q |]; cbn; try done.
  rewrite !Qltb_lt. intros Hle Hlt. by apply Qlt_le_trans with t.
Qed.

Lemma fgt_monotone (x : float64) (t t' : Q) :
  (t' <= t)%Q -> fgt x t = true -> fgt x t' = true.
Proof.
  destruct x as [| | q |]; cbn; try done.
  rewrite !Qltb_lt. intros Hle Hlt. by apply Qle_lt_trans with t.
Qed.

(** X16.  Loosening the thresholds never fails a unit that passed: with a
    higher ISI-violations threshold, a lower presence-ratio threshold and a
    higher amplitude-cutoff threshold, every unit flagged true stays true,
    in every mode. *)
Theorem looser_thresholds_keep_passing_units (m : mode) (listing : list DirEntry)
    (isi pr amp isi' pr' amp' : Q) (analyzer : SortingAnalyzer) (qm : DataFrame) (i : nat) :
  (isi <= isi')%Q -> (pr' <= pr)%Q -> (amp <= amp')%Q ->
  nth_error (mask_of (context_of m listing isi pr amp) analyzer qm) i = Some true ->
  nth_error (mask_of (context_of m listing isi' pr' amp') analyzer qm) i = Some true.
Proof.
  intros Hisi Hpr Hamp. unfold mask_of. cbn [context_of curation_query].
  rewrite !default_qc_as_map, !nth_error_map.
  destruct (nth_error (unit_ids analyzer) i) as [unit |]; cbn; [| done].
  intros [= Hin]. f_equal. revert Hin. apply np_in_curated_monotone.
  intros row. rewrite !eval_query_of_mode. intros (H1 & H2 & H3).
  repeat split.
  - by apply flt_monotone with isi.
  - intros Hm. apply fgt_monotone with pr; auto.
  - by apply flt_monotone with amp.
Qed.

Lemma looser_thresholds_keep_passing_units_witness :
  nth_error (mask_of (context_of PipelineMode [] 0.5 0.9 0.1) Samples.two_units
               Samples.two_units_table) 0 = Some true
  /\ nth_error (mask_of (context_of PipelineMode [] 0.7 0.8 0.2) Samples.two_units
                  Samples.two_units_table) 0 = Some true.
Proof.
  split; [reflexivity |].
  apply (looser_thresholds_keep_passing_units PipelineMode [] 0.5 0.9 0.1 0.7 0.8 0.2
           Samples.two_units Samples.two_units_table 0%nat);
    [vm_compute; discriminate | vm_compute; discriminate | vm_compute; discriminate
    | reflexivity].
Defined.

Lemma test_mode_mask_is_weaker_witness :
  nth_error (mask_of (context_of TestMode [] 0.5 0.9 0.1) Samples.two_units
               Samples.two_units_table) 0 = Some true.
Proof.
  apply (proj1 (test_mode_mask_is_weaker PipelineMode [] [] 0.5 0.9 0.1 Samples.two_units
                  Samples.two_units_table) 0%nat).
  reflexivity.
Defined.

(** ** Recording names and file names (lines 158-164, 173, 188) *)

(** X17.  In pipeline mode a folder name is cut after its first underscore
    and then treated as a folder name is outside pipeline mode: for a first
    token [a] without underscore, the recording name of [a_b] in pipeline
    mode is the recording name of [b] outside it. *)
Theorem pipeline_name_drops_first_token (a b : string) :
  PyStr.contains "_" a = false ->
  recording_name_of true (a ++ "_" ++ b) = recording_name_of false b.
Proof.
  intros Hno. unfold recording_name_of. by rewrite (drop_prefix_token _ _ Hno).
Qed.

Lemma pipeline_name_drops_first_token_witness :
  recording_name_of true ("postprocessed" ++ "_" ++ "experiment1_recording1.zarr")
  = recording_name_of false "experiment1_recording1.zarr".
Proof.
  apply (pipeline_name_drops_first_token "postprocessed" "experiment1_recording1.zarr").
  reflexivity.
Defined.

Lemma prefix_app_self (s t : string) : String.prefix s (s ++ t) = true.
Proof.
  induction s as [| c s IH]; [by destruct t |].
  rewrite str_app_cons. cbn [String.prefix]. by destruct (ascii_dec c c).
Qed.

Lemma contains_app (x sub t : string) : PyStr.contains sub (x ++ sub ++ t) = true.
Proof.
  induction x as [| c x IH].
  - rewrite str_app_nil_l.
    destruct (sub ++ t) eqn:Heq; cbn [PyStr.contains]; rewrite <- Heq;
      by rewrite prefix_app_self.
  - rewrite str_app_cons. cbn [PyStr.contains]. rewrite IH. apply orb_true_r.
Qed.

Lemma endswith_inv (s suf : string) :
  PyStr.endswith s suf = true -> exists x, s = x ++ suf.
Proof.
  induction s as [| c s IH]; cbn [PyStr.endswith]; intros H.
  - apply orb_true_iff in H as [H | H]; [| discriminate].
    apply String.eqb_eq in H as <-. by exists "".
  - apply orb_true_iff in H as [H | H].
    + apply String.eqb_eq in H as <-. by exists "".
    + destruct (IH H) as [x ->]. by exists (String c x).
Qed.

(** X18.  A folder and the same folder with a ".zarr" suffix get the same
    recording name, hence the same mask file and the same provenance file:
    for a name [a] in which ".zarr" does not occur, [a] and [a.zarr] both
    give [a]. *)
Theorem zarr_and_plain_folder_share_files (a : string) :
  PyStr.contains ".zarr" (a ++ ".zar") = false ->
  recording_name_of false a = a
  /\ recording_name_of false (a ++ ".zarr") = a
  /\ qc_file (recording_name_of false (a ++ ".zarr")) = qc_file (recording_name_of false a)
  /\ process_json_file (recording_name_of false (a ++ ".zarr"))
     = process_json_file (recording_name_of false a).
Proof.
  intros Hno.
  assert (Hplain : recording_name_of false a = a).
  { apply no_zarr_unchanged. destruct (PyStr.endswith a ".zarr") eqn:He; [| done].
    apply endswith_inv in He as [x ->]. rewrite str_app_assoc in Hno.
    by rewrite contains_app in Hno. }
  destruct (strip_single_zarr _ Hno) as [_ Hzarr].
  rewrite Hplain, Hzarr. done.
Qed.

Lemma zarr_and_plain_folder_share_files_witness :
  recording_name_of false "rec1" = "rec1"
  /\ recording_name_of false ("rec1" ++ ".zarr") = "rec1"
  /\ qc_file (recording_name_of false ("rec1" ++ ".zarr"))
     = qc_file (recording_name_of false "rec1")
  /\ process_json_file (recording_name_of false ("rec1" ++ ".zarr"))
     = process_json_file (recording_name_of false "rec1").
Proof.
  apply (zarr_and_plain_folder_share_files "rec1"). reflexivity.
Defined.

(** ** Job count on the command line (lines 44-45, 61-68) *)

(** X19.  The command-line job count is converted before the environment
    is consulted: when that conversion raises, the run ends with a
    [ValueError] and nothing logged or written, even though [CO_CPUS] holds
    a valid override. *)
Theorem bad_command_line_job_count_is_fatal (w : World) (cl : CommandLine)
    (args : Namespace) (e : exn) :
  parse_args cl = Ok args ->
  convert_n_jobs (PyStr.or_str (static_n_jobs args) (n_jobs args)) = Raise e ->
  resolve_n_jobs args (getenv_CO_CPUS w) = Raise ValueError
  /\ main w cl = ([], Raise ValueError).
Proof.
  intros Hargs Hconv.
  assert (Hres : resolve_n_jobs args (getenv_CO_CPUS w) = Raise ValueError).
  { unfold resolve_n_jobs. rewrite Hconv. cbn. by rewrite (convert_n_jobs_raises _ _ Hconv). }
  split; [exact Hres |].
  unfold main, prepare. rewrite Hargs. cbn. rewrite Hres. reflexivity.
Qed.

Lemma bad_command_line_job_count_is_fatal_witness :
  resolve_n_jobs
    {| static_n_jobs := "four"; n_jobs := "-1"; static_params_file := None;
       params_file := None; params_str := None |}
    (getenv_CO_CPUS (Samples.world (Some "8") [] [] [] [])) = Raise ValueError
  /\ main (Samples.world (Some "8") [] [] [] []) (Samples.no_options ["four"])
     = ([], Raise ValueError).
Proof.
  apply (bad_command_line_job_count_is_fatal (Samples.world (Some "8") [] [] [] [])
           (Samples.no_options ["four"])
           {| static_n_jobs := "four"; n_jobs := "-1"; static_params_file := None;
              params_file := None; params_str := None |} ValueError);
    reflexivity.
Defined.

(** X20.  For command lines the parser accepts, the job count depends on
    the positional word only: two command lines with the same positional
    words resolve to the same job count, whatever [--n-jobs] says on either;
    without a positional word (or with an empty one) the string converted is
    "-1". *)
Theorem job_count_depends_on_positional_only (cl cl' : CommandLine)
    (args args' : Namespace) (co_cpus : option string) :
  parse_args cl = Ok args ->
  parse_args cl' = Ok args' ->
  positionals cl = positionals cl' ->
  resolve_n_jobs args co_cpus = resolve_n_jobs args' co_cpus
  /\ (positionals cl !! 0%nat = None \/ positionals cl !! 0%nat = Some "" ->
      PyStr.or_str (static_n_jobs args) (n_jobs args) = "-1").
Proof.
  intros Hargs Hargs' Hpos. split.
  - unfold resolve_n_jobs.
    rewrite (n_jobs_option_never_read _ _ Hargs), (n_jobs_option_never_read _ _ Hargs').
    by rewrite Hpos.
  - rewrite (n_jobs_option_never_read _ _ Hargs). intros [-> | ->]; reflexivity.
Qed.

Lemma job_count_depends_on_positional_only_witness :
  resolve_n_jobs
    {| static_n_jobs := "-1"; n_jobs := "4"; static_params_file := None;
       params_file := None; params_str := None |} None
  = resolve_n_jobs
      {| static_n_jobs := "-1"; n_jobs := "-1"; static_params_file := None;
         params_file := None; params_str := None |} None.
Proof.
  apply (job_count_depends_on_positional_only Samples.only_named_n_jobs
           (Samples.no_options []) _ _ None eq_refl eq_refl eq_refl).
Defined.

(** ** Accepted job counts (lines 61-62) *)

Lemma contains_dot_nil : PyStr.contains "." "" = false.
Proof. reflexivity. Qed.

Lemma digit_not_dot (c : ascii) (d : Z) :
  PyNum.digit_of c = Some d -> Ascii.eqb "." c = false.
Proof.
  intros Hd. destruct (Ascii.eqb_spec "."%char c) as [<- |]; [discriminate | done].
Qed.

Lemma space_not_dot (c : ascii) : PyNum.is_space c = true -> Ascii.eqb "." c = false.
Proof.
  intros Hs. destruct (Ascii.eqb_spec "."%char c) as [<- |]; [discriminate | done].
Qed.

Lemma digitpart_rest_no_dot (m : nat) :
  forall s acc n v k,
    (String.length s <= m)%nat ->
    PyNum.digitpart_rest acc n s = (v, k, "") ->
    PyStr.contains "." s = false.
Proof.
  induction m as [| m IH]; intros s acc n v k Hlen Hrest.
  - destruct s; [reflexivity | cbn in Hlen; lia].
  - destruct s as [| c s']; [reflexivity |].
    cbn [String.length] in Hlen. cbn [PyNum.digitpart_rest] in Hrest.
    rewrite contains_char_cons.
    destruct (PyNum.digit_of c) as [d |] eqn:Hd.
    + rewrite (digit_not_dot _ _ Hd). cbn [orb]. eapply IH; [| exact Hrest]. lia.
    + destruct (Ascii.eqb c "_") eqn:Hus; [| discriminate].
      apply Ascii.eqb_eq in Hus as ->.
      destruct s' as [| c' s'']; [discriminate |].
      destruct (PyNum.digit_of c') as [d |] eqn:Hd'; [| discriminate].
      rewrite contains_char_cons, (digit_not_dot _ _ Hd'). cbn [orb Ascii.eqb].
      cbn [String.length] in Hlen. eapply IH; [| exact Hrest]. lia.
Qed.

Lemma lstrip_contains_dot (s : string) :
  PyStr.contains "." (PyNum.lstrip s) = PyStr.contains "." s.
Proof.
  induction s as [| c s IH]; [reflexivity |].
  cbn [PyNum.lstrip]. destruct (PyNum.is_space c) eqn:Hs; [| reflexivity].
  by rewrite contains_char_cons, (space_not_dot _ Hs), IH.
Qed.

Lemma rstrip_contains_dot (s : string) :
  PyStr.contains "." (PyNum.rstrip s) = PyStr.contains "." s.
Proof.
  induction s as [| c s IH]; [reflexivity |].
  cbn [PyNum.rstrip]. rewrite contains_char_cons, <- IH.
  destruct (PyNum.rstrip s) as [| c' t].
  - destruct (PyNum.is_space c) eqn:Hs.
    + by rewrite (space_not_dot _ Hs).
    + by rewrite contains_char_cons.
  - by rewrite contains_char_cons.
Qed.

(** [int] accepts no string with a decimal point. *)
Lemma py_int_no_dot (s : string) (z : Z) :
  PyNum.py_int s = Some z -> PyStr.contains "." s = false.
Proof.
  unfold PyNum.py_int, PyNum.strip. intros Hint.
  rewrite <- lstrip_contains_dot, <- rstrip_contains_dot.
  destruct (PyNum.sign_of (PyNum.rstrip (PyNum.lstrip s))) as [sg r] eqn:Hsign.
  assert (Hr : PyStr.contains "." r = false).
  { destruct r as [| c r']; [reflexivity |]. cbn [PyNum.digitpart] in Hint.
    destruct (PyNum.digit_of c) as [d |] eqn:Hd; [| discriminate].
    rewrite contains_char_cons, (digit_not_dot _ _ Hd). cbn [orb].
    destruct (PyNum.digitpart_rest d 1 r') as [[v k] rest] eqn:Hrest.
    destruct rest; [| discriminate].
    apply (digitpart_rest_no_dot (String.length r') _ _ _ _ _ (le_n _) Hrest). }
  unfold PyNum.sign_of in Hsign.
  destruct (PyNum.rstrip (PyNum.lstrip s)) as [| c t]; [reflexivity |].
  destruct (Ascii.eqb_spec c "-"%char) as [-> | Hm].
  { injection Hsign as <- <-. by rewrite contains_char_cons, Hr. }
  destruct (Ascii.eqb_spec c "+"%char) as [-> | Hp].
  { injection Hsign as <- <-. by rewrite contains_char_cons, Hr. }
  assert (r = String c t) as ->; [| exact Hr].
  destruct c as [[] [] [] [] [] [] [] []]; try (injection Hsign as <- <-; reflexivity);
    congruence.
Qed.

(** X21.  An accepted job count is of one of two forms: it begins with
    "0." and is read as a float, or it has no decimal point at all and is
    read as an integer.  A job count such as "1.5", ".5" or "-0.5" is
    therefore refused with a [ValueError]. *)
Theorem accepted_job_count_forms (s : string) (v : n_jobs_value) :
  convert_n_jobs s = Ok v ->
  (PyStr.startswith s "0." = true /\ exists q, v = NFloat q /\ PyNum.py_float s = Some q)
  \/ (PyStr.contains "." s = false /\ exists z, v = NInt z /\ PyNum.py_int s = Some z).
Proof.
  unfold convert_n_jobs. destruct (PyStr.startswith s "0.") eqn:Hs; cbn.
  - destruct (PyNum.py_float s) as [q |] eqn:Hf; cbn; [| discriminate].
    intros [= <-]. left. eauto.
  - destruct (PyNum.py_int s) as [z |] eqn:Hi; cbn; [| discriminate].
    intros [= <-]. right. split; [by apply (py_int_no_dot _ z) | eauto].
Qed.

Lemma accepted_job_count_forms_witness :
  (PyStr.startswith "0.25" "0." = true
   /\ exists q, NFloat 0.25 = NFloat q /\ PyNum.py_float "0.25" = Some q)
  \/ (PyStr.contains "." "0.25" = false
      /\ exists z, NFloat 0.25 = NInt z /\ PyNum.py_int "0.25" = Some z).
Proof.
  apply (accepted_job_count_forms "0.25" (NFloat 0.25)). reflexivity.
Defined.

(** ** The suffix rule, whatever the name (lines 162-163) *)

Lemma str_app_nil_r (s : string) : s ++ "" = s.
Proof. induction s as [| c s IH]; [reflexivity |]. by rewrite str_app_cons, IH. Qed.

Lemma prefix_inv (p s : string) : String.prefix p s = true -> exists y, s = p ++ y.
Proof.
  revert s. induction p as [| c p IH]; intros s Hp.
  - by exists s.
  - destruct s as [| c' s]; cbn [String.prefix] in Hp; [discriminate |].
    destruct (ascii_dec c c') as [<- |]; [| discriminate].
    destruct (IH _ Hp) as [y ->]. by exists y.
Qed.

(** The first occurrence of ".zarr" in a string that has one. *)
Lemma first_zarr (s : string) :
  forall i,
    PyStr.contains ".zarr" s = true ->
    exists x y,
      s = x ++ ".zarr" ++ y
      /\ PyStr.find_from ".zarr" s i = i + Z.of_nat (String.length x)
      /\ PyStr.contains ".zarr" (x ++ ".zar") = false.
Proof.
  induction s as [| c s IH]; intros i Hc; [discriminate |].
  cbn [PyStr.contains] in Hc. cbn [PyStr.find_from].
  destruct (String.prefix ".zarr" (String c s)) eqn:Hp.
  - destruct (prefix_inv _ _ Hp) as [y Hy]. exists "", y.
    rewrite str_app_nil_l. repeat split; [exact Hy | cbn; lia].
  - cbn [orb] in Hc. destruct (IH (i + 1) Hc) as (x & y & -> & Hfind & Hno).
    exists (String c x), y. split; [reflexivity |].
    split; [rewrite Hfind; cbn [String.length]; lia |].
    change (String c x ++ ".zar") with (String c (x ++ ".zar")).
    cbn [PyStr.contains]. rewrite Hno, orb_false_r.
    assert (Heq : String c (x ++ ".zarr" ++ y) = String c (x ++ ".zar") ++ "r" ++ y)
      by (change (String c (x ++ ".zar") ++ "r" ++ y)
            with (String c ((x ++ ".zar") ++ "r" ++ y));
          by rewrite (str_app_assoc x ".zar" ("r" ++ y))).
    rewrite Heq in Hp. rewrite prefix_app_long in Hp; [exact Hp |].
    cbn [String.length]. rewrite str_app_length. cbn [String.length]. lia.
Qed.

Lemma endswith_contains (s suf : string) :
  PyStr.endswith s suf = true -> PyStr.contains suf s = true.
Proof.
  intros He. apply endswith_inv in He as [x ->].
  rewrite <- (str_app_nil_r suf) at 2. apply contains_app.
Qed.

Lemma no_zarr_before_no_suffix (x : string) :
  PyStr.contains ".zarr" (x ++ ".zar") = false -> PyStr.endswith x ".zarr" = false.
Proof.
  intros Hno. destruct (PyStr.endswith x ".zarr") eqn:He; [| done].
  apply endswith_inv in He as [x' ->]. rewrite str_app_assoc in Hno.
  by rewrite contains_app in Hno.
Qed.

(** X22.  Whatever the folder name and the mode, the recording name does
    not end in ".zarr", and applying the suffix rule to it again changes
    nothing. *)
Theorem recording_name_has_no_zarr_suffix (pipeline_mode : bool) (folder_name : string) :
  PyStr.endswith (recording_name_of pipeline_mode folder_name) ".zarr" = false
  /\ recording_name_of false (recording_name_of pipeline_mode folder_name)
     = recording_name_of pipeline_mode folder_name.
Proof.
  assert (Hend : PyStr.endswith (recording_name_of pipeline_mode folder_name) ".zarr" = false).
  { unfold recording_name_of.
    set (rn := if pipeline_mode
               then PyStr.join "_" (PyStr.from1 (PyStr.split "_" folder_name))
               else folder_name).
    destruct (PyStr.endswith rn ".zarr") eqn:He; [| exact He].
    destruct (first_zarr rn 0 (endswith_contains _ _ He)) as (x & y & Hrn & Hfind & Hno).
    unfold PyStr.find. rewrite Hfind, Hrn. unfold PyStr.slice_to.
    rewrite str_app_length.
    replace (0 + Z.of_nat (String.length x) <? 0) with false
      by (symmetry; apply Z.ltb_ge; lia).
    rewrite Z.min_l by lia. rewrite Z.add_0_l, Nat2Z.id, substring_prefix.
    by apply no_zarr_before_no_suffix. }
  split; [exact Hend |]. by apply no_zarr_unchanged.
Qed.
